(** * A shallow embedding of [src/actions/actions.py] (agent-runbook-tutor)

    The action handlers are glue code over three kinds of effects: local
    files (the desktop registry, [metadata.json], prompt files), HTTP calls
    to the assistant service at [127.0.0.1:8100], and Python's own lookup
    semantics on decoded JSON.  The model below keeps all three explicit:

    - decoded JSON is the inductive [json] (objects as association lists, in
      document order, as a Python [dict] keeps them); JSON numbers are
      modelled as integers;
    - every Python exception the handlers can raise is a constructor of
      [exn], and a handler returns a [result];
    - the file system and the HTTP server are records of functions that
      the handlers query; [deploy_agent] additionally logs every request it
      sends, so that the payloads it POSTs can be inspected. *)

From Stdlib Require Import String Ascii List ZArith Bool Lia Permutation.
Import ListNotations.
Open Scope string_scope.
Set Warnings "-register-all".

(** ** Decoded JSON values and Python exceptions *)

Inductive json : Type :=
| JNull
| JBool (b : bool)
| JInt (z : Z)
| JStr (s : string)
| JList (l : list json)
| JObj (kvs : list (string * json)).

Inductive exn : Type :=
| KeyError (k : string)
| IndexError
| TypeError
| AttributeError
| ValueError
| UnicodeDecodeError
| JSONDecodeError
| ValidationError
| FileNotFoundError (path : string)
| IsADirectoryError (path : string)
| PermissionError (path : string)
| OSError (path : string).

(** [except (FileNotFoundError, OSError)]: [FileNotFoundError],
    [IsADirectoryError] and [PermissionError] are subclasses of [OSError];
    [UnicodeDecodeError] and [ValueError] are not. *)
Definition is_oserror (e : exn) : bool :=
  match e with
  | FileNotFoundError _ | IsADirectoryError _ | PermissionError _ | OSError _ => true
  | _ => false
  end.

Inductive result (A : Type) : Type :=
| Ok (a : A)
| Err (e : exn).
Arguments Ok {A} a.
Arguments Err {A} e.

Definition bind {A B} (r : result A) (f : A -> result B) : result B :=
  match r with
  | Ok a => f a
  | Err e => Err e
  end.

Notation "'let*' x ':=' r 'in' k" := (bind r (fun x => k))
  (at level 200, x name, r at level 100, k at level 200).

(** ** Python operations on decoded JSON *)

Fixpoint assoc_lookup (k : string) (kvs : list (string * json)) : option json :=
  match kvs with
  | [] => None
  | (k', v) :: rest => if String.eqb k k' then Some v else assoc_lookup k rest
  end.

(** [v[k]] with a string key. *)
Definition getitem (v : json) (k : string) : result json :=
  match v with
  | JObj kvs =>
      match assoc_lookup k kvs with
      | Some x => Ok x
      | None => Err (KeyError k)
      end
  | _ => Err TypeError
  end.

(** [v[i]] with an integer index [i >= 0]. *)
Definition getindex (v : json) (i : nat) : result json :=
  match v with
  | JList l =>
      match nth_error l i with
      | Some x => Ok x
      | None => Err IndexError
      end
  | JStr s =>
      match String.get i s with
      | Some c => Ok (JStr (String c EmptyString))
      | None => Err IndexError
      end
  | JObj _ => Err (KeyError "0")
  | _ => Err TypeError
  end.

Fixpoint string_chars (s : string) : list json :=
  match s with
  | EmptyString => []
  | String c rest => JStr (String c EmptyString) :: string_chars rest
  end.

(** [for x in v]: lists yield their items, dicts their keys, strings their
    characters; other values are not iterable. *)
Definition py_iter (v : json) : result (list json) :=
  match v with
  | JList l => Ok l
  | JObj kvs => Ok (map (fun kv => JStr (fst kv)) kvs)
  | JStr s => Ok (string_chars s)
  | _ => Err TypeError
  end.

(** [k in v] for a dict [v] (a key test). *)
Definition has_key (k : string) (v : json) : bool :=
  match v with
  | JObj kvs => match assoc_lookup k kvs with Some _ => true | None => false end
  | _ => false
  end.

(** [v == s] for a Python string [s]. *)
Definition is_str (v : json) (s : string) : bool :=
  match v with
  | JStr s' => String.eqb s' s
  | _ => false
  end.

(** [x in names] for a list of strings. *)
Definition in_names (v : json) (names : list string) : bool :=
  existsb (is_str v) names.

(** Truthiness ([bool(v)]). *)
Definition truthy (v : json) : bool :=
  match v with
  | JNull => false
  | JBool b => b
  | JInt z => negb (Z.eqb z 0)
  | JStr s => negb (String.eqb s EmptyString)
  | JList l => match l with [] => false | _ => true end
  | JObj kvs => match kvs with [] => false | _ => true end
  end.

(** ** [str()] and [repr()] of decoded JSON, as used by f-strings *)

Definition digit_char (n : Z) : ascii := ascii_of_nat (48 + Z.to_nat n).

Fixpoint pos_digits (fuel : nat) (n : Z) (acc : string) : string :=
  match fuel with
  | O => acc
  | S f =>
      let acc' := String (digit_char (Z.modulo n 10)) acc in
      if Z.ltb n 10 then acc' else pos_digits f (Z.div n 10) acc'
  end.

(** Decimal rendering of an integer ([str(int)]). *)
Definition z_to_dec (z : Z) : string :=
  let n := Z.abs z in
  let ds := pos_digits (S (Z.to_nat (Z.log2 n))) n EmptyString in
  if Z.ltb z 0 then "-" ++ ds else ds.

Definition hex_char (n : nat) : ascii :=
  if Nat.ltb n 10 then ascii_of_nat (48 + n) else ascii_of_nat (87 + n).

Definition hex_escape (c : ascii) : string :=
  let n := nat_of_ascii c in
  String "\" (String "x" (String (hex_char (Nat.div n 16))
    (String (hex_char (Nat.modulo n 16)) EmptyString))).

Fixpoint has_char (c : ascii) (s : string) : bool :=
  match s with
  | EmptyString => false
  | String c' rest => Ascii.eqb c c' || has_char c rest
  end.

(** Escaping of one character by [repr(str)], bytes read as the code
    points U+0000..U+00FF. *)
Definition repr_char (q : ascii) (c : ascii) : string :=
  let n := nat_of_ascii c in
  if Ascii.eqb c "\" then String "\" (String "\" EmptyString)
  else if Ascii.eqb c q then String "\" (String q EmptyString)
  else if Nat.eqb n 9 then String "\" (String "t" EmptyString)
  else if Nat.eqb n 10 then String "\" (String "n" EmptyString)
  else if Nat.eqb n 13 then String "\" (String "r" EmptyString)
  else if Nat.ltb n 32 || ((Nat.leb 127 n) && (Nat.leb n 160)) || Nat.eqb n 173
  then hex_escape c
  else String c EmptyString.

Fixpoint repr_chars (q : ascii) (s : string) : string :=
  match s with
  | EmptyString => EmptyString
  | String c rest => repr_char q c ++ repr_chars q rest
  end.

Definition dquote : ascii := ascii_of_nat 34.

(** [repr(s)]: single quotes unless [s] contains a single quote and no
    double quote. *)
Definition repr_str (s : string) : string :=
  let q := if has_char "'" s && negb (has_char dquote s) then dquote else "'"%char in
  String q (repr_chars q s ++ String q EmptyString).

Fixpoint join (sep : string) (l : list string) : string :=
  match l with
  | [] => EmptyString
  | [x] => x
  | x :: rest => x ++ sep ++ join sep rest
  end.

Fixpoint py_repr (v : json) : string :=
  match v with
  | JNull => "None"
  | JBool b => if b then "True" else "False"
  | JInt z => z_to_dec z
  | JStr s => repr_str s
  | JList l => "[" ++ join ", " (map py_repr l) ++ "]"
  | JObj kvs =>
      "{" ++ join ", " (map (fun kv => repr_str (fst kv) ++ ": " ++ py_repr (snd kv)) kvs)
      ++ "}"
  end.

(** [str(v)], i.e. what [f"{v}"] inserts. *)
Definition py_str (v : json) : string :=
  match v with
  | JStr s => s
  | _ => py_repr v
  end.

(** ** The desktop action registry ([get_actions], lines 25-93) *)

(** Outcome of [open(path)] followed by [json.loads(f.read())]. *)
Inductive json_file : Type :=
| JFile (v : json)
| JMissing
| JMalformed.

(** The local machine as [get_actions] sees it: the [ROBOCORP_HOME]
    environment variable (after [load_dotenv]) and the JSON files on disk. *)
Record machine := {
  env_robocorp_home : option string;
  read_json_file : string -> json_file
}.

Definition load_json (m : machine) (path : string) : result json :=
  match read_json_file m path with
  | JFile v => Ok v
  | JMissing => Err (FileNotFoundError path)
  | JMalformed => Err JSONDecodeError
  end.

Record ActionPackage := {
  ap_name : string;
  ap_port : Z;
  ap_api_spec : list (string * json)
}.

(** The pydantic field validators of [ActionPackage]: [str], [int] and
    [dict] fields.  (Lax-mode coercions of other JSON shapes into [int]
    are not modelled; such fields are rejected.) *)
Definition validate_str (v : json) : result string :=
  match v with JStr s => Ok s | _ => Err ValidationError end.
Definition validate_int (v : json) : result Z :=
  match v with JInt z => Ok z | _ => Err ValidationError end.
Definition validate_dict (v : json) : result (list (string * json)) :=
  match v with JObj kvs => Ok kvs | _ => Err ValidationError end.

Definition mk_ActionPackage (name port api_spec : json) : result ActionPackage :=
  let* n := validate_str name in
  let* p := validate_int port in
  let* d := validate_dict api_spec in
  Ok {| ap_name := n; ap_port := p; ap_api_spec := d |}.

Definition HARDCODED_INTERNAL_ACTIONS : list string :=
  ["Sema4 Desktop Action Getter"; "Thread Monitor"; "Agent Deployer"; "Retreival"].

(** The loop body over [config["ActionPackageMapping"]], accumulating
    [actions] (lines 80-92). *)
Fixpoint get_actions_loop (m : machine) (internal_actions : list string)
    (mappings : list json) : result (list ActionPackage) :=
  match mappings with
  | [] => Ok []
  | action_mapping :: rest =>
      let* action_path := getitem action_mapping "path" in
      let* api_spec := load_json m (py_str action_path ++ "/metadata.json") in
      let* name := getitem action_mapping "name" in
      if in_names name internal_actions then get_actions_loop m internal_actions rest
      else
        let* port := getitem action_mapping "actionServerPort" in
        let* pkg := mk_ActionPackage name port api_spec in
        let* others := get_actions_loop m internal_actions rest in
        Ok (pkg :: others)
  end.

Definition get_actions (m : machine) (internal_actions : list string)
    : result (list ActionPackage) :=
  let* ROBOCORP_HOME :=
    match env_robocorp_home m with
    | Some h => Ok h
    | None => Err (KeyError "ROBOCORP_HOME")
    end in
  let SEMA4_DESKTOPHOME := ROBOCORP_HOME ++ "/sema4ai-desktop" in
  let* config := load_json m (SEMA4_DESKTOPHOME ++ "/config.json") in
  let* mappings_v := getitem config "ActionPackageMapping" in
  let* mappings := py_iter mappings_v in
  get_actions_loop m internal_actions mappings.

(** ** The assistant service and the deployment flow ([deploy_agent], lines 96-213) *)

(** An HTTP response: its status code and its body decoded as JSON
    ([None] when [json.loads] / [resp.json()] would raise). *)
Record http_resp := {
  status_code : Z;
  content : option json
}.

(** The assistant service, as a function of each request. *)
Record service := {
  http_get : string -> http_resp;
  http_post : string -> json -> http_resp;
  (** multipart POST to [/ingest]: file name, MIME type, [assistant_id] *)
  http_post_file : string -> string -> string -> json -> http_resp;
  http_put : string -> json -> http_resp
}.

(** The local files [deploy_agent] reads: [open(path, "r").read()] with its
    outcome (text, or the exception it raises), [open(path, "rb")], and
    [mimetypes.guess_type]. *)
Record host := {
  ACTION_ROOT : string;
  read_text : string -> result string;
  open_binary : string -> result unit;
  guess_type : string -> option string
}.

(** Requests sent, in order. *)
Inductive request : Type :=
| ReqPost (url : string) (body : json)
| ReqPostFile (url : string) (filename : string) (mime : string) (assistant_id : json).

(** Error and request-log monad of the deployment flow. *)
Definition D (A : Type) : Type := list request -> list request * result A.

Definition dret {A} (a : A) : D A := fun log => (log, Ok a).

Definition dbind {A B} (m : D A) (f : A -> D B) : D B :=
  fun log =>
    match m log with
    | (log', Ok a) => f a log'
    | (log', Err e) => (log', Err e)
    end.

Definition dlift {A} (r : result A) : D A := fun log => (log, r).

Notation "'let!' x ':=' m 'in' k" := (dbind m (fun x => k))
  (at level 200, x name, m at level 100, k at level 200).

Definition post (srv : service) (url : string) (body : json) : D http_resp :=
  fun log => (app log [ReqPost url body], Ok (http_post srv url body)).

Definition post_file (srv : service) (url filename mime : string) (aid : json)
    : D http_resp :=
  fun log => (app log [ReqPostFile url filename mime aid],
              Ok (http_post_file srv url filename mime aid)).

(** [json.loads(resp.content)]. *)
Definition resp_json (r : http_resp) : result json :=
  match content r with
  | Some v => Ok v
  | None => Err JSONDecodeError
  end.

Definition starts_with_slash (s : string) : bool :=
  match s with
  | String c _ => Ascii.eqb c "/"
  | EmptyString => false
  end.

Definition handle_relative_file_path (h : host) (file_path : string) : string :=
  if starts_with_slash file_path then file_path else ACTION_ROOT h ++ "/" ++ file_path.

(** [read_text_file(v)]; [Path(v)] raises [TypeError] on a non-string. *)
Definition read_text_file (h : host) (v : json) : result string :=
  match v with
  | JStr p => read_text h (handle_relative_file_path h p)
  | _ => Err TypeError
  end.

(** [str.title()] over the model's characters, the Latin-1 code points
    U+0000-U+00FF: a character is title-cased when the character before it
    is not cased, and lower-cased otherwise.  The cased characters are the
    ASCII letters, the Latin-1 letters U+00C0-U+00FF but for the signs
    U+00D7 and U+00F7, and the ordinals U+00AA, U+00BA and the micro sign
    U+00B5.  A lower-case letter and its capital are 32 apart, the sharp s
    U+00DF title-cases to ["Ss"], and the micro sign and U+00FF title-case
    to U+039C and U+0178, which lie outside Latin-1: [title_in_latin1]
    tells when this happens, and there [title] keeps the character. *)
Definition is_cased (c : ascii) : bool :=
  let n := nat_of_ascii c in
  (Nat.leb 65 n && Nat.leb n 90) || (Nat.leb 97 n && Nat.leb n 122)
  || Nat.eqb n 170 || Nat.eqb n 181 || Nat.eqb n 186
  || (Nat.leb 192 n && negb (Nat.eqb n 215) && negb (Nat.eqb n 247)).

Definition to_lower (c : ascii) : ascii :=
  let n := nat_of_ascii c in
  if (Nat.leb 65 n && Nat.leb n 90) || (Nat.leb 192 n && Nat.leb n 222 && negb (Nat.eqb n 215))
  then ascii_of_nat (n + 32) else c.

(** The title case of one character, [None] when it is not in Latin-1. *)
Definition to_title (c : ascii) : option string :=
  let n := nat_of_ascii c in
  if (Nat.leb 97 n && Nat.leb n 122) || (Nat.leb 224 n && Nat.leb n 254 && negb (Nat.eqb n 247))
  then Some (String (ascii_of_nat (n - 32)) EmptyString)
  else if Nat.eqb n 223 then Some "Ss"
  else if Nat.eqb n 181 || Nat.eqb n 255 then None
  else Some (String c EmptyString).

Fixpoint title_from (prev_cased : bool) (s : string) : string :=
  match s with
  | EmptyString => EmptyString
  | String c rest =>
      let c' := if prev_cased then String (to_lower c) EmptyString
                else match to_title c with Some t => t | None => String c EmptyString end in
      c' ++ title_from (is_cased c) rest
  end.

Definition title (s : string) : string := title_from false s.



(** One iteration of the tool loop (lines 146-151). *)
Definition normalize_tool (t : json) : result json :=
  match t with
  | JObj _ => Ok t
  | JStr s =>
      Ok (JObj [("config", JObj [("name", JStr (title s))]);
                ("type", JStr s);
                ("name", JStr (title s))])
  | _ => Err AttributeError
  end.

Fixpoint normalize_tools (ts : list json) : result (list json) :=
  match ts with
  | [] => Ok []
  | t :: rest =>
      let* t' := normalize_tool t in
      let* rest' := normalize_tools rest in
      Ok (t' :: rest')
  end.

(** [os.path.basename]. *)
Fixpoint basename_from (cur : string) (s : string) : string :=
  match s with
  | EmptyString => cur
  | String c rest =>
      if Ascii.eqb c "/" then basename_from EmptyString rest
      else basename_from (cur ++ String c EmptyString) rest
  end.

Definition basename (s : string) : string := basename_from EmptyString s.

(** The upload loop over [agent["files"]] (lines 177-202); the service's
    answers are printed and otherwise ignored. *)
Fixpoint upload_files (h : host) (srv : service) (assistant_id : json)
    (files : list json) : D unit :=
  match files with
  | [] => dret tt
  | file_path :: rest =>
      let! p := dlift (match file_path with JStr p => Ok p | _ => Err TypeError end) in
      let filename := basename p in
      let mime_type :=
        match guess_type h p with Some m => m | None => "application/octet-stream" end in
      let! _ := dlift (open_binary h p) in
      let! _ := post_file srv "http://localhost:8100/ingest" filename mime_type assistant_id in
      upload_files h srv assistant_id rest
  end.

(** Lines 135-139: the system prompt is read from its file, and on an
    [OSError] the given value itself is used. *)
Definition resolve_system_prompt (h : host) (sp_arg : json) : result json :=
  match read_text_file h sp_arg with
  | Ok text => Ok (JStr text)
  | Err e => if is_oserror e then Ok sp_arg else Err e
  end.

(** Lines 144-151. *)
Definition agent_tools (agent : json) : result (list json) :=
  if has_key "tools" agent then
    let* tv := getitem agent "tools" in
    let* ts := py_iter tv in
    normalize_tools ts
  else Ok [].

(** The creation payload of lines 153-166. *)
Definition assistant_payload (name : json) (retrieval_prompt : string) (model system_prompt : json)
    (tools : list json) (description : json) : json :=
  JObj [("name", name);
        ("config", JObj [("configurable", JObj
           [("type==agent/retrieval_description", JStr retrieval_prompt);
            ("type==agent/agent_type", model);
            ("type==agent/system_message", system_prompt);
            ("type==agent/tools", JList tools);
            ("type", JStr "agent");
            ("type==agent/interrupt_before_action", JBool false);
            ("type==agent/description", description)])])].

Definition ASSISTANTS_URL : string := "http://localhost:8100/assistants".

Definition deploy_agent (h : host) (srv : service) (agent : json) : D (json * json) :=
  let! _ := dlift (getitem agent "name") in
  let! sp_arg := dlift (getitem agent "system-prompt") in
  let! system_prompt := dlift (resolve_system_prompt h sp_arg) in
  let! rp_arg := dlift (getitem agent "retrieval-prompt") in
  let! retrieval_prompt := dlift (read_text_file h rp_arg) in
  let! tools := dlift (agent_tools agent) in
  let! name := dlift (getitem agent "name") in
  let! model := dlift (getitem agent "model") in
  let! description := dlift (getitem agent "description") in
  let jsn := assistant_payload name retrieval_prompt model system_prompt tools description in
  let! resp := post srv ASSISTANTS_URL jsn in
  let! assistant := dlift (resp_json resp) in
  let! assistant_id := dlift (getitem assistant "assistant_id") in
  let! _ :=
    (if has_key "files" agent then
       let! fv := dlift (getitem agent "files") in
       let! fs := dlift (py_iter fv) in
       upload_files h srv assistant_id fs
     else dret tt) in
  let welcome :=
    JObj [("name", JStr "Welcome");
          ("assistant_id", assistant_id);
          ("starting_message", JStr "Hi! How can I help you with today?")] in
  let! resp2 := post srv "http://localhost:8100/threads" welcome in
  let! thread := dlift (resp_json resp2) in
  let! thread_id := dlift (getitem thread "thread_id") in
  dret (assistant_id, thread_id).

(** ** ISO-8601 timestamps ([datetime.fromisoformat], line 301)

    The strings [datetime.fromisoformat] accepts differ between Python
    versions (3.11 widened them), so the thread summary takes the parser as
    a parameter, and its properties hold for every parser.  [fromisoformat]
    below is the format of the documentation of every version since 3.7,
    [YYYY-MM-DD[*HH[:MM[:SS[.fff[fff]]]][+HH:MM[:SS[.ffffff]]]]], where the
    separator [*] is any one character; other strings raise [ValueError].
    A datetime is its wall-clock time in microseconds since 0001-01-01 and,
    when aware, its UTC offset in microseconds. *)

Open Scope Z_scope.

Record datetime := {
  dt_local : Z;
  dt_offset : option Z
}.

Definition digit_val (c : ascii) : option Z :=
  let n := nat_of_ascii c in
  if Nat.leb 48 n && Nat.leb n 57 then Some (Z.of_nat (n - 48)) else None.

Fixpoint parse_digits (k : nat) (acc : Z) (cs : list ascii) : option (Z * list ascii) :=
  match k with
  | O => Some (acc, cs)
  | S k' =>
      match cs with
      | c :: rest =>
          match digit_val c with
          | Some d => parse_digits k' (acc * 10 + d) rest
          | None => None
          end
      | [] => None
      end
  end.

Definition expect (c : ascii) (cs : list ascii) : option (list ascii) :=
  match cs with
  | c' :: rest => if Ascii.eqb c c' then Some rest else None
  | [] => None
  end.

Definition is_leap (y : Z) : bool :=
  (Z.eqb (Z.modulo y 4) 0 && negb (Z.eqb (Z.modulo y 100) 0)) || Z.eqb (Z.modulo y 400) 0.

Definition days_in_month (y m : Z) : Z :=
  if Z.eqb m 2 then (if is_leap y then 29 else 28)
  else if existsb (Z.eqb m) [4; 6; 9; 11] then 30 else 31.

Definition days_before_month (y m : Z) : Z :=
  nth (Z.to_nat (m - 1)) [0; 31; 59; 90; 120; 151; 181; 212; 243; 273; 304; 334] 0
  + (if Z.ltb 2 m && is_leap y then 1 else 0).

Definition days_before_year (y : Z) : Z :=
  let y1 := y - 1 in 365 * y1 + y1 / 4 - y1 / 100 + y1 / 400.

Definition ordinal (y m d : Z) : Z := days_before_year y + days_before_month y m + d.

Definition parse_fraction (cs : list ascii) : option (Z * list ascii) :=
  match cs with
  | c :: rest =>
      if Ascii.eqb c "." then
        match parse_digits 6 0 rest with
        | Some r => Some r
        | None =>
            match parse_digits 3 0 rest with
            | Some (ms, rest') => Some (ms * 1000, rest')
            | None => None
            end
        end
      else Some (0, cs)
  | [] => Some (0, cs)
  end.

(** [HH[:MM[:SS[.fff[fff]]]]], the whole of [cs]. *)
Definition parse_hh_mm_ss_ff (cs : list ascii) : option (Z * Z * Z * Z) :=
  match parse_digits 2 0 cs with
  | Some (hh, []) => Some (hh, 0, 0, 0)
  | Some (hh, r1) =>
  match expect ":" r1 with
  | Some r2 =>
  match parse_digits 2 0 r2 with
  | Some (mi, []) => Some (hh, mi, 0, 0)
  | Some (mi, r3) =>
  match expect ":" r3 with
  | Some r4 =>
  match parse_digits 2 0 r4 with
  | Some (ss, r5) =>
  match parse_fraction r5 with
  | Some (us, []) => Some (hh, mi, ss, us)
  | _ => None end
  | None => None end
  | None => None end
  | None => None end
  | None => None end
  | None => None
  end.

(** The time is cut at the first [+] or [-], which starts the offset. *)
Fixpoint split_tz (cs : list ascii) : list ascii * option (Z * list ascii) :=
  match cs with
  | [] => ([], None)
  | c :: rest =>
      if Ascii.eqb c "+" then ([], Some (1, rest))
      else if Ascii.eqb c "-" then ([], Some (-1, rest))
      else let (t, z) := split_tz rest in (c :: t, z)
  end.

(** The part after the separator: hours, minutes, seconds, microseconds
    and the offset, which has the form [HH:MM], [HH:MM:SS] or
    [HH:MM:SS.ffffff] and is less than a day. *)
Definition parse_time (cs : list ascii) : option (Z * Z * Z * Z * option Z) :=
  let (tpart, tz) := split_tz cs in
  match parse_hh_mm_ss_ff tpart with
  | None => None
  | Some (hh, mi, ss, us) =>
      match tz with
      | None => Some (hh, mi, ss, us, None)
      | Some (sg, zs) =>
          if existsb (Nat.eqb (List.length zs)) [5%nat; 8%nat; 15%nat] then
            match parse_hh_mm_ss_ff zs with
            | Some (oh, om, os, ous) =>
                let off := sg * (((oh * 60 + om) * 60 + os) * 1000000 + ous) in
                if Z.ltb (Z.abs off) (24 * 3600 * 1000000)
                then Some (hh, mi, ss, us, Some off) else None
            | None => None
            end
          else None
      end
  end.

Definition fromisoformat (s : string) : option datetime :=
  let cs := list_ascii_of_string s in
  match parse_digits 4 0 cs with
  | Some (y, r1) =>
  match expect "-" r1 with
  | Some r2 =>
  match parse_digits 2 0 r2 with
  | Some (mo, r3) =>
  match expect "-" r3 with
  | Some r4 =>
  match parse_digits 2 0 r4 with
  | Some (d, r5) =>
  let time := match r5 with
              | [] => Some (0, 0, 0, 0, None)
              | _ :: tstr => parse_time tstr
              end in
  match time with
  | Some (hh, mi, ss, us, off) =>
      if Z.leb 1 y && Z.leb 1 mo && Z.leb mo 12 && Z.leb 1 d
         && Z.leb d (days_in_month y mo) && Z.ltb hh 24 && Z.ltb mi 60 && Z.ltb ss 60
      then Some {| dt_local := (((ordinal y mo d * 24 + hh) * 60 + mi) * 60 + ss)
                                 * 1000000 + us;
                   dt_offset := off |}
      else None
  | None => None end
  | None => None end
  | None => None end
  | None => None end
  | None => None end
  | None => None
  end.

(** [s.replace('Z', '+00:00')]: every occurrence. *)
Fixpoint replace_Z (s : string) : string :=
  match s with
  | EmptyString => EmptyString
  | String c rest =>
      if Ascii.eqb c "Z" then "+00:00" ++ replace_Z rest else String c (replace_Z rest)
  end.

(** [a > b] on datetimes: aware datetimes compare as instants, naive ones
    by wall clock, and mixing the two raises [TypeError]. *)
Definition dt_gt (a b : datetime) : result bool :=
  match dt_offset a, dt_offset b with
  | Some oa, Some ob => Ok (Z.gtb (dt_local a - oa) (dt_local b - ob))
  | None, None => Ok (Z.gtb (dt_local a) (dt_local b))
  | _, _ => Err TypeError
  end.

(** ** The thread summary ([get_latest_thread], lines 280-334) *)

Definition nl : string := String (ascii_of_nat 10) EmptyString.

Definition BASE : string := "http://127.0.0.1:8100".

(** [[thread for thread in threads if thread['assistant_id'] == assistant_id]] *)
Fixpoint filter_threads (assistant_id : string) (threads : list json) : result (list json) :=
  match threads with
  | [] => Ok []
  | t :: rest =>
      let* a := getitem t "assistant_id" in
      let* rest' := filter_threads assistant_id rest in
      Ok (if is_str a assistant_id then t :: rest' else rest')
  end.

(** [datetime.fromisoformat(thread['updated_at'].replace('Z', '+00:00'))],
    with [fromiso] for [datetime.fromisoformat]. *)
Definition thread_updated_at (fromiso : string -> option datetime) (t : json) : result datetime :=
  let* u := getitem t "updated_at" in
  match u with
  | JStr s =>
      match fromiso (replace_Z s) with
      | Some d => Ok d
      | None => Err ValueError
      end
  | _ => Err AttributeError
  end.

(** The loop of line 300: each thread paired with its parsed timestamp. *)
Fixpoint stamp_threads (fromiso : string -> option datetime) (threads : list json)
    : result (list (json * datetime)) :=
  match threads with
  | [] => Ok []
  | t :: rest =>
      let* d := thread_updated_at fromiso t in
      let* rest' := stamp_threads fromiso rest in
      Ok ((t, d) :: rest')
  end.

(** [max(items, key=...)] over a non-empty list: the running maximum is
    replaced only by an item whose key is strictly greater, so the first
    maximal item wins. *)
Fixpoint max_from (best : json * datetime) (items : list (json * datetime))
    : result (json * datetime) :=
  match items with
  | [] => Ok best
  | it :: rest =>
      let* gt := dt_gt (snd it) (snd best) in
      max_from (if gt then it else best) rest
  end.

Definition py_max (items : list (json * datetime)) : result (json * datetime) :=
  match items with
  | [] => Err ValueError
  | first :: rest => max_from first rest
  end.

(** [message['content'][:100]]. *)
Definition slice100 (v : json) : result json :=
  match v with
  | JStr s => Ok (JStr (substring 0 100 s))
  | JList l => Ok (JList (firstn 100 l))
  | _ => Err TypeError
  end.

(** One iteration of the rendering loop (lines 321-326). *)
Definition render_message (message : json) : result (option string) :=
  let* ty := getitem message "type" in
  let* ai_plain :=
    if is_str ty "ai" then
      let* tc := getitem message "tool_calls" in Ok (negb (truthy tc))
    else Ok false in
  if ai_plain then
    let* c := getitem message "content" in Ok (Some ("AI: " ++ py_str c))
  else if is_str ty "human" then
    let* c := getitem message "content" in Ok (Some ("Human: " ++ py_str c))
  else if is_str ty "tool" then
    let* n := getitem message "name" in
    let* c := getitem message "content" in
    let* c100 := slice100 c in
    Ok (Some ("Tool: " ++ py_str n ++ nl ++ "  Response: " ++ py_str c100))
  else Ok None.

Fixpoint render_messages (messages : list json) : result (list string) :=
  match messages with
  | [] => Ok []
  | m :: rest =>
      let* line := render_message m in
      let* rest' := render_messages rest in
      Ok (match line with Some l => l :: rest' | None => rest' end)
  end.

(** Lines 306-332, once the latest thread is chosen. *)
Definition summarize_thread (srv : service) (latest_thread : json) : result string :=
  let* thread_id := getitem latest_thread "thread_id" in
  let resp := http_get srv (BASE ++ "/threads/" ++ py_str thread_id ++ "/history") in
  let* json_data := resp_json resp in
  let* h0 := getindex json_data 0%nat in
  let* vals := getitem h0 "values" in
  let* msgs := getitem vals "messages" in
  let* messages := py_iter msgs in
  let* summary := render_messages messages in
  Ok (join (nl ++ nl) summary).

Definition get_latest_thread (fromiso : string -> option datetime) (srv : service)
    (assistant_id : string) : result string :=
  let resp := http_get srv (BASE ++ "/threads/") in
  let* threads_v := resp_json resp in
  let* threads := py_iter threads_v in
  let* assistant_threads := filter_threads assistant_id threads in
  match assistant_threads with
  | [] => Ok "Did not find threads"
  | _ :: _ =>
      let* stamped := stamp_threads fromiso assistant_threads in
      let* latest := py_max stamped in
      summarize_thread srv (fst latest)
  end.

(** ** Runbook lookup and update (lines 354-407) *)

Definition get_agent_runbook (srv : service) (assistant_id : string) : result json :=
  let resp := http_get srv (BASE ++ "/assistants/" ++ assistant_id) in
  match (let* b := resp_json resp in
         let* c := getitem b "config" in
         let* cc := getitem c "configurable" in
         getitem cc "type==agent/system_message") with
  | Ok response => Ok response
  | Err _ => Ok (JStr "Did not find the runbook")
  end.

Fixpoint assoc_set (k : string) (v : json) (kvs : list (string * json))
    : list (string * json) :=
  match kvs with
  | [] => [(k, v)]
  | (k', v') :: rest =>
      if String.eqb k k' then (k', v) :: rest else (k', v') :: assoc_set k v rest
  end.

(** [d[k] = v] on a dict: an existing key keeps its position. *)
Definition setitem (d : json) (k : string) (v : json) : result json :=
  match d with
  | JObj kvs => Ok (JObj (assoc_set k v kvs))
  | _ => Err TypeError
  end.

Definition update_agent_runbook (srv : service) (assistant_id new_runbook : string)
    : result string :=
  let url := BASE ++ "/assistants/" ++ assistant_id in
  let resp := http_get srv url in
  let* b1 := resp_json resp in
  let* name := getitem b1 "name" in
  let* b2 := resp_json resp in
  let* public := getitem b2 "public" in
  let* b3 := resp_json resp in
  let* config := getitem b3 "config" in
  let* configurable := getitem config "configurable" in
  let* configurable' := setitem configurable "type==agent/system_message" (JStr new_runbook) in
  let* config' := setitem config "configurable" configurable' in
  let payload := JObj [("name", name); ("config", config'); ("public", public)] in
  let response := http_put srv url payload in
  if Z.eqb (status_code response) 200 then Ok "Successfully updated!"
  else
    let* body := resp_json response in
    Ok ("Failed with status code: " ++ z_to_dec (status_code response)
        ++ ", message is " ++ py_str body).

(** ** The remaining actions of the module *)

(** [s.endswith(suffix)]. *)
Definition ends_with (suffix s : string) : bool :=
  Nat.leb (String.length suffix) (String.length s)
  && String.eqb (substring (String.length s - String.length suffix) (String.length suffix) s)
                suffix.

(** [get_mime_type] (lines 125-129). *)
Definition get_mime_type (h : host) (file_path : string) : string :=
  if ends_with ".md" file_path then "text/plain"
  else match guess_type h file_path with
       | Some mime_type => mime_type
       | None => "application/octet-stream"
       end.

(** [create_action_server_config] (lines 216-230); [port] is inserted into
    the URL by [str()]. *)
Definition create_action_server_config (action_name port : json) : json :=
  JObj [("type", JStr "action_server_by_sema4ai");
        ("name", JStr "Action Server by Sema4.ai");
        ("description", JStr ("Run AI actions with [Sema4.ai Action Server]"
                              ++ "(https://github.com/Sema4AI/actions)."));
        ("config", JObj [("url", JStr ("http://localhost:" ++ py_str port));
                         ("api_key", JStr "APIKEY");
                         ("name", action_name);
                         ("isBundled", JStr "false")])].

(** The loop over [json.loads(tool_names)] (lines 269-270). *)
Fixpoint action_server_tools (tools : list json) : result (list json) :=
  match tools with
  | [] => Ok []
  | tool :: rest =>
      let* tool_name := getitem tool "tool_name" in
      let* port := getitem tool "port" in
      let* rest' := action_server_tools rest in
      Ok (create_action_server_config tool_name port :: rest')
  end.

(** [deploy_agent_to_desktop] (lines 233-278).  [template] is the outcome
    of [load_yaml_file(TEMPLATE)] (the parsed YAML, or the exception), and
    [tool_names] the outcome of [json.loads(tool_names)] ([None] when the
    text is not JSON). *)
Definition deploy_agent_to_desktop (h : host) (template : result json) (srv : service)
    (name description system_prompt : string) (tool_names : option json) : D string :=
  let! data := dlift template in
  let! bundle := dlift (getitem data "s4d-bundle") in
  let! agents := dlift (getitem bundle "agents") in
  let! first := dlift (getindex agents 0) in
  let! agent_to_deploy := dlift (getitem first "agent") in
  let! agent1 := dlift (setitem agent_to_deploy "name" (JStr name)) in
  let! agent2 := dlift (setitem agent1 "description" (JStr description)) in
  let! agent3 := dlift (setitem agent2 "system-prompt" (JStr system_prompt)) in
  let! decoded := dlift (match tool_names with
                         | Some v => Ok v
                         | None => Err JSONDecodeError
                         end) in
  let! tool_list := dlift (py_iter decoded) in
  let! tools := dlift (action_server_tools tool_list) in
  let! agent4 := dlift (setitem agent3 "tools" (JList tools)) in
  let! ids := deploy_agent h srv agent4 in
  let out := JObj [("assistant_id", fst ids); ("thread_id", snd ids)] in
  dret (py_repr out).

(** The loop of [get_all_agents] (lines 349-350), accumulating [agent_info]. *)
Fixpoint agents_info (agents : list json) (agent_info : string) : result string :=
  match agents with
  | [] => Ok agent_info
  | agent :: rest =>
      let* n := getitem agent "name" in
      let* i := getitem agent "assistant_id" in
      agents_info rest (agent_info ++ "Name: " ++ py_str n ++ ", ID: " ++ py_str i ++ nl)
  end.

(** [get_all_agents] (lines 336-352). *)
Definition get_all_agents (srv : service) : result string :=
  let resp := http_get srv (BASE ++ "/assistants/") in
  let* agents_v := resp_json resp in
  let* agents := py_iter agents_v in
  let* agent_info := agents_info agents EmptyString in
  Ok ("Available agents are:" ++ nl ++ agent_info).

(** * Properties *)

(** ** Shared facts about the embedding *)

Lemma bind_ok {A B} (r : result A) (f : A -> result B) (b : B) :
  bind r f = Ok b -> exists a, r = Ok a /\ f a = Ok b.
Proof. destruct r; simpl; [eauto | discriminate]. Qed.

Lemma bind_err {A B} (r : result A) (f : A -> result B) e :
  r = Err e -> bind r f = Err e.
Proof. intros ->; reflexivity. Qed.

Lemma in_names_str (s : string) (names : list string) :
  in_names (JStr s) names = true <-> In s names.
Proof.
  unfold in_names; rewrite existsb_exists; split.
  - intros [x [Hin Heq]]; simpl in Heq; apply String.eqb_eq in Heq; subst; exact Hin.
  - intros Hin; exists s; split; [exact Hin | apply String.eqb_refl].
Qed.

Lemma mk_ActionPackage_name name port spec pkg :
  mk_ActionPackage name port spec = Ok pkg -> name = JStr (ap_name pkg).
Proof.
  unfold mk_ActionPackage; destruct name; simpl; try discriminate.
  destruct port; simpl; try discriminate.
  destruct spec; simpl; try discriminate.
  intros H; inversion H; reflexivity.
Qed.

(** ** A well-formed registry *)

(** A registry entry as the spec describes it. *)
Record reg_entry := {
  re_name : string;
  re_path : string;
  re_port : Z;
  re_spec : list (string * json)
}.

(** [mapping] is the JSON form of [e], and its [metadata.json] holds a dict. *)
Definition entry_wf (m : machine) (mapping : json) (e : reg_entry) : Prop :=
  getitem mapping "path" = Ok (JStr (re_path e)) /\
  getitem mapping "name" = Ok (JStr (re_name e)) /\
  getitem mapping "actionServerPort" = Ok (JInt (re_port e)) /\
  read_json_file m (re_path e ++ "/metadata.json") = JFile (JObj (re_spec e)).

Definition registry_wf (m : machine) (entries : list reg_entry) : Prop :=
  exists home config mappings,
    env_robocorp_home m = Some home /\
    read_json_file m ((home ++ "/sema4ai-desktop") ++ "/config.json") = JFile config /\
    getitem config "ActionPackageMapping" = Ok (JList mappings) /\
    Forall2 (entry_wf m) mappings entries.

Definition package_of (e : reg_entry) : ActionPackage :=
  {| ap_name := re_name e; ap_port := re_port e; ap_api_spec := re_spec e |}.

Definition not_excluded (E : list string) (e : reg_entry) : bool :=
  negb (existsb (String.eqb (re_name e)) E).

Lemma get_actions_loop_wf m E mappings entries :
  Forall2 (entry_wf m) mappings entries ->
  get_actions_loop m E mappings = Ok (map package_of (filter (not_excluded E) entries)).
Proof.
  induction 1 as [| mapping e mappings entries Hwf _ IH]; [reflexivity |].
  destruct Hwf as (Hpath & Hname & Hport & Hmeta).
  simpl. rewrite Hpath; simpl. unfold load_json; simpl. rewrite Hmeta; simpl.
  rewrite Hname; simpl.
  assert (Hin : in_names (JStr (re_name e)) E = existsb (String.eqb (re_name e)) E)
    by reflexivity.
  rewrite Hin; unfold not_excluded at 1.
  destruct (existsb (String.eqb (re_name e)) E) eqn:Hex; simpl.
  - exact IH.
  - rewrite Hport; simpl. rewrite IH; reflexivity.
Qed.

Lemma get_actions_loop_excludes m E mappings ps :
  get_actions_loop m E mappings = Ok ps -> Forall (fun p => ~ In (ap_name p) E) ps.
Proof.
  revert ps; induction mappings as [| mapping rest IH]; intros ps H.
  - simpl in H; inversion H; constructor.
  - simpl in H.
    apply bind_ok in H as [path [_ H]].
    apply bind_ok in H as [spec [_ H]].
    apply bind_ok in H as [name [_ H]].
    destruct (in_names name E) eqn:Hin; [exact (IH _ H) |].
    apply bind_ok in H as [port [_ H]].
    apply bind_ok in H as [pkg [Hpkg H]].
    apply bind_ok in H as [others [Hrest H]].
    inversion H; subst; clear H.
    constructor; [| exact (IH _ Hrest)].
    apply mk_ActionPackage_name in Hpkg; subst name.
    intros HE; apply in_names_str in HE; congruence.
Qed.

(** A desktop host with two registered action servers, one of them named
    like an entry of [HARDCODED_INTERNAL_ACTIONS]. *)
Definition demo_mapping (name path : string) (port : Z) : json :=
  JObj [("name", JStr name); ("path", JStr path); ("actionServerPort", JInt port)].

Definition demo_entries : list reg_entry :=
  [ {| re_name := "Agent Deployer"; re_path := "/srv/deployer"; re_port := 8080;
       re_spec := [("openapi", JStr "3.1.0")] |};
    {| re_name := "Browsing"; re_path := "/srv/browsing"; re_port := 8081;
       re_spec := [("openapi", JStr "3.1.0"); ("paths", JObj [])] |} ].

Definition demo_machine : machine := {|
  env_robocorp_home := Some "/home/u/.robocorp";
  read_json_file := fun p =>
    if String.eqb p "/home/u/.robocorp/sema4ai-desktop/config.json" then
      JFile (JObj [("ActionPackageMapping",
                    JList [demo_mapping "Agent Deployer" "/srv/deployer" 8080;
                           demo_mapping "Browsing" "/srv/browsing" 8081])])
    else if String.eqb p "/srv/deployer/metadata.json" then
      JFile (JObj [("openapi", JStr "3.1.0")])
    else if String.eqb p "/srv/browsing/metadata.json" then
      JFile (JObj [("openapi", JStr "3.1.0"); ("paths", JObj [])])
    else JMissing
|}.

Lemma demo_registry_wf : registry_wf demo_machine demo_entries.
Proof.
  exists "/home/u/.robocorp".
  eexists. exists [demo_mapping "Agent Deployer" "/srv/deployer" 8080;
                   demo_mapping "Browsing" "/srv/browsing" 8081].
  split; [reflexivity |]. split; [reflexivity |]. split; [reflexivity |].
  repeat constructor.
Qed.

(** C1: [get_actions(E)] never returns a package whose name is in [E]; on a
    well-formed registry (configured home, readable [config.json] whose
    [ActionPackageMapping] is a list of entries with string [name] and
    [path], integer [actionServerPort], and a dict in each
    [<path>/metadata.json]) it returns exactly the entries whose names are
    not in [E], in registry order, each as [{name, port, api_spec}].  [E]
    is only the caller's list: [HARDCODED_INTERNAL_ACTIONS] is never added. *)
Theorem get_actions_filters_registry (m : machine) (E : list string) :
  (forall ps, get_actions m E = Ok ps -> Forall (fun p => ~ In (ap_name p) E) ps) /\
  (forall entries, registry_wf m entries ->
     get_actions m E = Ok (map package_of (filter (not_excluded E) entries))).
Proof.
  split.
  - intros ps H. unfold get_actions in H.
    apply bind_ok in H as [home [_ H]].
    apply bind_ok in H as [config [_ H]].
    apply bind_ok in H as [mv [_ H]].
    apply bind_ok in H as [mappings [_ H]].
    exact (get_actions_loop_excludes _ _ _ _ H).
  - intros entries (home & config & mappings & Hhome & Hcfg & Hmap & Hall).
    unfold get_actions. rewrite Hhome; simpl.
    unfold load_json at 1. rewrite Hcfg; simpl. rewrite Hmap; simpl.
    apply get_actions_loop_wf; exact Hall.
Qed.

Lemma get_actions_filters_registry_witness :
  registry_wf demo_machine demo_entries /\
  get_actions demo_machine [] = Ok (map package_of demo_entries).
Proof.
  split; [exact demo_registry_wf |].
  exact (proj2 (get_actions_filters_registry demo_machine []) demo_entries demo_registry_wf).
Defined.

Definition is_err {A} (r : result A) : Prop := exists e, r = Err e.

Lemma is_err_bind {A B} (r : result A) (f : A -> result B) :
  (forall a, r = Ok a -> is_err (f a)) -> is_err (bind r f).
Proof.
  destruct r as [a | e]; simpl; intros H.
  - exact (H a eq_refl).
  - exists e; reflexivity.
Qed.

Lemma get_actions_loop_bad_metadata m E mappings mapping path :
  In mapping mappings ->
  getitem mapping "path" = Ok path ->
  (read_json_file m (py_str path ++ "/metadata.json") = JMissing \/
   read_json_file m (py_str path ++ "/metadata.json") = JMalformed) ->
  is_err (get_actions_loop m E mappings).
Proof.
  intros Hin Hpath Hbad; induction mappings as [| mp rest IH]; [destruct Hin |].
  destruct Hin as [<- | Hin].
  - simpl. rewrite Hpath; simpl. unfold load_json.
    destruct Hbad as [-> | ->]; simpl; eexists; reflexivity.
  - specialize (IH Hin); simpl.
    apply is_err_bind; intros p _.
    apply is_err_bind; intros spec _.
    apply is_err_bind; intros name _.
    destruct (in_names name E); [exact IH |].
    apply is_err_bind; intros port _.
    apply is_err_bind; intros pkg _.
    destruct IH as [e He]; rewrite He; exists e; reflexivity.
Qed.

(** C4: the listing fails as a whole: a missing [config.json] raises
    [FileNotFoundError], and a missing or malformed [metadata.json] of any
    entry of [ActionPackageMapping] (excluded by [E] or not) makes
    [get_actions] raise; no list, partial or empty, is returned. *)
Theorem get_actions_fails_as_a_whole (m : machine) (E : list string) :
  (forall home,
     env_robocorp_home m = Some home ->
     read_json_file m ((home ++ "/sema4ai-desktop") ++ "/config.json") = JMissing ->
     get_actions m E = Err (FileNotFoundError ((home ++ "/sema4ai-desktop") ++ "/config.json"))) /\
  (forall home config mappings mapping path,
     env_robocorp_home m = Some home ->
     read_json_file m ((home ++ "/sema4ai-desktop") ++ "/config.json") = JFile config ->
     getitem config "ActionPackageMapping" = Ok (JList mappings) ->
     In mapping mappings ->
     getitem mapping "path" = Ok path ->
     (read_json_file m (py_str path ++ "/metadata.json") = JMissing \/
      read_json_file m (py_str path ++ "/metadata.json") = JMalformed) ->
     is_err (get_actions m E) /\ forall ps, get_actions m E <> Ok ps).
Proof.
  split.
  - intros home Hhome Hcfg. unfold get_actions. rewrite Hhome; simpl.
    unfold load_json. rewrite Hcfg. reflexivity.
  - intros home config mappings mapping path Hhome Hcfg Hmap Hin Hpath Hbad.
    assert (Herr : is_err (get_actions m E)).
    { unfold get_actions. rewrite Hhome; simpl.
      unfold load_json at 1. rewrite Hcfg; simpl. rewrite Hmap; simpl.
      exact (get_actions_loop_bad_metadata m E mappings mapping path Hin Hpath Hbad). }
    split; [exact Herr |].
    intros ps Hps; destruct Herr as [e He]; congruence.
Qed.

(** The registry of [demo_machine] with the metadata of the excluded
    ["Agent Deployer"] entry removed. *)
Definition demo_machine_no_meta : machine := {|
  env_robocorp_home := env_robocorp_home demo_machine;
  read_json_file := fun p =>
    if String.eqb p "/srv/deployer/metadata.json" then JMissing
    else read_json_file demo_machine p
|}.

Lemma get_actions_fails_as_a_whole_witness :
  get_actions demo_machine_no_meta HARDCODED_INTERNAL_ACTIONS
    = Err (FileNotFoundError "/srv/deployer/metadata.json") /\
  get_actions {| env_robocorp_home := Some "/h"; read_json_file := fun _ => JMissing |} []
    = Err (FileNotFoundError "/h/sema4ai-desktop/config.json") /\
  is_err (get_actions demo_machine_no_meta HARDCODED_INTERNAL_ACTIONS).
Proof.
  split; [reflexivity |]. split.
  - exact (proj1 (get_actions_fails_as_a_whole
                    {| env_robocorp_home := Some "/h"; read_json_file := fun _ => JMissing |} [])
                 "/h" eq_refl eq_refl).
  - exact (proj1 (proj2 (get_actions_fails_as_a_whole demo_machine_no_meta
                    HARDCODED_INTERNAL_ACTIONS)
                 "/home/u/.robocorp" _ _ (demo_mapping "Agent Deployer" "/srv/deployer" 8080)
                 (JStr "/srv/deployer") eq_refl eq_refl eq_refl
                 (or_introl eq_refl) eq_refl (or_introl eq_refl))).
Defined.

(** ** The deployment flow *)

Lemma upload_files_log h srv aid fs log :
  exists extra, fst (upload_files h srv aid fs log) = app log extra /\
                (forall u b, ~ In (ReqPost u b) extra).
Proof.
  revert log; induction fs as [| fp rest IH]; intros log; simpl.
  - exists []; split; [symmetry; apply app_nil_r | intros ? ? []].
  - unfold dbind, dlift. destruct fp as [| b | z | s | l | kvs]; simpl; try (exists []; split; [symmetry; apply app_nil_r | intros ? ? []]).
    destruct (open_binary h s); simpl; [| exists []; split; [symmetry; apply app_nil_r | intros ? ? []]].
    destruct (IH (app log [ReqPostFile "http://localhost:8100/ingest" (basename s)
          (match guess_type h s with Some m => m | None => "application/octet-stream" end) aid])) as [extra [Hx Hn]].
    destruct (upload_files h srv aid rest _) as [l' r'] eqn:Hu; simpl in *.
    exists (ReqPostFile "http://localhost:8100/ingest" (basename s)
          (match guess_type h s with Some m => m | None => "application/octet-stream" end) aid :: extra).
    split; [rewrite Hx, <- app_assoc; reflexivity |].
    intros u b [Habs | Hin]; [discriminate | exact (Hn u b Hin)].
Qed.

Lemma deploy_agent_assistant_post h srv agent log r body :
  deploy_agent h srv agent [] = (log, r) ->
  In (ReqPost ASSISTANTS_URL body) log ->
  exists sp_arg system_prompt rp_arg retrieval_prompt tools name model description,
    getitem agent "system-prompt" = Ok sp_arg /\
    resolve_system_prompt h sp_arg = Ok system_prompt /\
    getitem agent "retrieval-prompt" = Ok rp_arg /\
    read_text_file h rp_arg = Ok retrieval_prompt /\
    agent_tools agent = Ok tools /\
    getitem agent "name" = Ok name /\
    getitem agent "model" = Ok model /\
    getitem agent "description" = Ok description /\
    body = assistant_payload name retrieval_prompt model system_prompt tools description.
Proof.
  unfold deploy_agent, dbind, dlift, post, dret; simpl.
  intros H Hin.
  destruct (getitem agent "name") as [n0 | e] eqn:Hname; [| inversion H; subst; destruct Hin].
  destruct (getitem agent "system-prompt") as [spa | e] eqn:Hspa; [| inversion H; subst; destruct Hin].
  destruct (resolve_system_prompt h spa) as [sp | e] eqn:Hsp; [| inversion H; subst; destruct Hin].
  destruct (getitem agent "retrieval-prompt") as [rpa | e] eqn:Hrpa; [| inversion H; subst; destruct Hin].
  destruct (read_text_file h rpa) as [rp | e] eqn:Hrp; [| inversion H; subst; destruct Hin].
  destruct (agent_tools agent) as [tools | e] eqn:Htools; [| inversion H; subst; destruct Hin].
  destruct (getitem agent "model") as [model | e] eqn:Hmodel; [| inversion H; subst; destruct Hin].
  destruct (getitem agent "description") as [desc | e] eqn:Hdesc; [| inversion H; subst; destruct Hin].
  exists spa, sp, rpa, rp, tools, n0, model, desc.
  do 8 (split; [first [reflexivity | assumption] |]).
  set (P := assistant_payload n0 rp model sp tools desc) in *.
  assert (Hne : forall b', ReqPost "http://localhost:8100/threads" b' <> ReqPost ASSISTANTS_URL body)
    by (intros b' Heq; inversion Heq).
  destruct (resp_json (http_post srv ASSISTANTS_URL P)) as [a | e];
    [| inversion H; subst; destruct Hin as [Heq | []]; inversion Heq; reflexivity].
  destruct (getitem a "assistant_id") as [aid | e];
    [| inversion H; subst; destruct Hin as [Heq | []]; inversion Heq; reflexivity].
  match type of H with
  | context [match ?blk [ReqPost ASSISTANTS_URL P] with pair _ _ => _ end] =>
      destruct (blk [ReqPost ASSISTANTS_URL P]) as [l1 r1] eqn:Hb
  end.
  assert (Hfiles : exists extra, l1 = app [ReqPost ASSISTANTS_URL P] extra /\
                                 (forall u b, ~ In (ReqPost u b) extra)).
  { revert Hb; destruct (has_key "files" agent); simpl; intros Hb.
    2: { inversion Hb; subst; exists []; split; [reflexivity | intros ? ? []]. }
    destruct (getitem agent "files");
      [| inversion Hb; subst; exists []; split; [reflexivity | intros ? ? []]].
    destruct (py_iter a0) as [fs | e];
      [| inversion Hb; subst; exists []; split; [reflexivity | intros ? ? []]].
    destruct (upload_files_log h srv aid fs [ReqPost ASSISTANTS_URL P]) as [extra Hx].
    rewrite Hb in Hx; exists extra; exact Hx. }
  destruct Hfiles as [extra [Hx Hn]]; subst l1.
  assert (Hin' : In (ReqPost ASSISTANTS_URL body) (ReqPost ASSISTANTS_URL P :: extra)).
  { destruct r1 as [[] | e]; [| inversion H; subst; exact Hin].
    destruct (resp_json _) as [t | e]; [destruct (getitem t "thread_id") |];
      inversion H; subst;
      (destruct Hin as [Heq | Hin]; [left; exact Heq |]);
      apply in_app_or in Hin as [Hin | [Heq | []]];
      solve [right; exact Hin | exfalso; exact (Hne _ Heq)]. }
  destruct Hin' as [Heq | Hin']; [inversion Heq; reflexivity | exfalso; exact (Hn _ _ Hin')].
Qed.

(** [config.configurable] of a creation payload. *)
Definition configurable_of (body : json) : option (list (string * json)) :=
  match body with
  | JObj kvs =>
      match assoc_lookup "config" kvs with
      | Some (JObj c) =>
          match assoc_lookup "configurable" c with
          | Some (JObj cc) => Some cc
          | _ => None
          end
      | _ => None
      end
  | _ => None
  end.

(** A deployment in which the system prompt is literal text and the
    retrieval prompt is a file under [ACTION_ROOT]. *)
Definition demo_host : host := {|
  ACTION_ROOT := "/opt/runbook-tutor";
  read_text := fun p =>
    if String.eqb p "/opt/runbook-tutor/retrieval-prompt.md" then Ok "Search the files."
    else Err (FileNotFoundError p);
  open_binary := fun _ => Ok tt;
  guess_type := fun _ => None
|}.
Definition demo_service : service := {|
  http_get := fun _ => {| status_code := 404; content := None |};
  http_post := fun url _ =>
    if String.eqb url ASSISTANTS_URL
    then {| status_code := 200; content := Some (JObj [("assistant_id", JStr "a-1")]) |}
    else {| status_code := 200; content := Some (JObj [("thread_id", JStr "t-1")]) |};
  http_post_file := fun _ _ _ _ => {| status_code := 200; content := None |};
  http_put := fun _ _ => {| status_code := 200; content := None |}
|}.
Definition demo_agent : json :=
  JObj [("name", JStr "Tutor"); ("description", JStr "Teaches runbooks");
        ("system-prompt", JStr "You are a tutor."); ("retrieval-prompt", JStr "retrieval-prompt.md");
        ("tools", JList [JStr "search"; JObj [("type", JStr "retrieval")]]); ("model", JStr "GPT 4o")].

Definition demo_assistant_body : json :=
  assistant_payload (JStr "Tutor") "Search the files." (JStr "GPT 4o") (JStr "You are a tutor.")
    [JObj [("config", JObj [("name", JStr "Search")]); ("type", JStr "search");
           ("name", JStr "Search")];
     JObj [("type", JStr "retrieval")]]
    (JStr "Teaches runbooks").

Lemma demo_deploy_log :
  deploy_agent demo_host demo_service demo_agent [] =
  ([ReqPost ASSISTANTS_URL demo_assistant_body;
    ReqPost "http://localhost:8100/threads"
      (JObj [("name", JStr "Welcome"); ("assistant_id", JStr "a-1");
             ("starting_message", JStr "Hi! How can I help you with today?")])],
   Ok (JStr "a-1", JStr "t-1")).
Proof. vm_compute. reflexivity. Qed.

(** The spec's reading of C2: the [configurable] map of every creation
    payload has nine keys. *)
Definition nine_configurable_keys (h : host) (srv : service) (agent : json) : Prop :=
  forall log r body,
    deploy_agent h srv agent [] = (log, r) ->
    In (ReqPost ASSISTANTS_URL body) log ->
    exists cc, configurable_of body = Some cc /\ length cc = 9%nat.

(** C2 (counterexample): the demo deployment POSTs a payload whose
    [config.configurable] has seven keys, not nine. *)
Lemma deploy_agent_configurable_not_nine :
  ~ nine_configurable_keys demo_host demo_service demo_agent /\
  option_map (@length (string * json)) (configurable_of demo_assistant_body) = Some 7%nat.
Proof.
  split; [| reflexivity].
  intros H.
  destruct (H _ _ demo_assistant_body demo_deploy_log (or_introl eq_refl)) as [cc [Hcc Hlen]].
  vm_compute in Hcc. inversion Hcc; subst cc. discriminate Hlen.
Qed.

(** C2 (amended): every creation payload POSTed to [/assistants] carries the
    agent's [name] and a [config.configurable] map with exactly seven keys,
    in this order: the retrieval prompt text, [agent_type] = the agent's
    [model], the resolved system prompt, the normalised tools, the literal
    [type = "agent"], the literal [interrupt_before_action = False], and the
    agent's [description]. *)
Theorem deploy_agent_configurable_seven_keys (h : host) (srv : service) (agent : json)
    log r body :
  deploy_agent h srv agent [] = (log, r) ->
  In (ReqPost ASSISTANTS_URL body) log ->
  exists name retrieval_prompt model system_prompt tools description,
    getitem agent "name" = Ok name /\
    getitem agent "model" = Ok model /\
    getitem agent "description" = Ok description /\
    agent_tools agent = Ok tools /\
    (exists rp_arg, getitem agent "retrieval-prompt" = Ok rp_arg /\
                    read_text_file h rp_arg = Ok retrieval_prompt) /\
    (exists sp_arg, getitem agent "system-prompt" = Ok sp_arg /\
                    resolve_system_prompt h sp_arg = Ok system_prompt) /\
    assoc_lookup "name" (match body with JObj kvs => kvs | _ => [] end) = Some name /\
    configurable_of body = Some
      [("type==agent/retrieval_description", JStr retrieval_prompt);
       ("type==agent/agent_type", model);
       ("type==agent/system_message", system_prompt);
       ("type==agent/tools", JList tools);
       ("type", JStr "agent");
       ("type==agent/interrupt_before_action", JBool false);
       ("type==agent/description", description)].
Proof.
  intros Hrun Hin.
  destruct (deploy_agent_assistant_post h srv agent log r body Hrun Hin)
    as (spa & sp & rpa & rp & tools & name & model & desc &
        Hspa & Hsp & Hrpa & Hrp & Htools & Hname & Hmodel & Hdesc & ->).
  exists name, rp, model, sp, tools, desc.
  repeat split; try assumption.
  - exists rpa; split; assumption.
  - exists spa; split; assumption.
Qed.

Lemma deploy_agent_configurable_seven_keys_witness :
  exists name retrieval_prompt model system_prompt tools description,
    getitem demo_agent "name" = Ok name /\
    getitem demo_agent "model" = Ok model /\
    getitem demo_agent "description" = Ok description /\
    agent_tools demo_agent = Ok tools /\
    (exists rp_arg, getitem demo_agent "retrieval-prompt" = Ok rp_arg /\
                    read_text_file demo_host rp_arg = Ok retrieval_prompt) /\
    (exists sp_arg, getitem demo_agent "system-prompt" = Ok sp_arg /\
                    resolve_system_prompt demo_host sp_arg = Ok system_prompt) /\
    assoc_lookup "name" (match demo_assistant_body with JObj kvs => kvs | _ => [] end)
      = Some name /\
    configurable_of demo_assistant_body = Some
      [("type==agent/retrieval_description", JStr retrieval_prompt);
       ("type==agent/agent_type", model);
       ("type==agent/system_message", system_prompt);
       ("type==agent/tools", JList tools);
       ("type", JStr "agent");
       ("type==agent/interrupt_before_action", JBool false);
       ("type==agent/description", description)].
Proof.
  apply (deploy_agent_configurable_seven_keys demo_host demo_service demo_agent _ _
           demo_assistant_body demo_deploy_log).
  simpl; left; reflexivity.
Defined.

(** A host on which the runbook file exists but its bytes do not decode as
    text in the platform encoding. *)
Definition demo_host_undecodable : host := {|
  ACTION_ROOT := ACTION_ROOT demo_host;
  read_text := fun p =>
    if String.eqb p "/opt/runbook-tutor/runbook.md" then Err UnicodeDecodeError
    else read_text demo_host p;
  open_binary := open_binary demo_host;
  guess_type := guess_type demo_host
|}.

Definition demo_agent_runbook_file : json :=
  JObj [("name", JStr "Tutor"); ("description", JStr "Teaches runbooks");
        ("system-prompt", JStr "runbook.md"); ("retrieval-prompt", JStr "retrieval-prompt.md");
        ("model", JStr "GPT 4o")].

(** C3 (counterexample): a system-prompt file that exists but cannot be
    decoded is not replaced by the literal string: the read error escapes
    and the deployment fails before anything is POSTed. *)
Lemma deploy_agent_undecodable_prompt_fails :
  read_text_file demo_host_undecodable (JStr "runbook.md") = Err UnicodeDecodeError /\
  resolve_system_prompt demo_host_undecodable (JStr "runbook.md") <> Ok (JStr "runbook.md") /\
  deploy_agent demo_host_undecodable demo_service demo_agent_runbook_file []
    = ([], Err UnicodeDecodeError).
Proof.
  split; [reflexivity |]. split; [vm_compute; discriminate | vm_compute; reflexivity].
Qed.

(** C3 (amended): when reading the system-prompt file raises an [OSError]
    (missing file, directory, permission denied), the given value itself is
    the prompt and is what the creation payload carries as
    [system_message]; any other read error (undecodable text, a path with a
    NUL byte) fails the deployment with that error and nothing is POSTed.
    A retrieval-prompt read error of any kind fails the deployment, with no
    fallback and nothing POSTed. *)
Theorem deploy_agent_prompt_resolution (h : host) (srv : service) (agent name sp_arg : json) :
  getitem agent "name" = Ok name ->
  getitem agent "system-prompt" = Ok sp_arg ->
  (forall e, read_text_file h sp_arg = Err e -> is_oserror e = true ->
     resolve_system_prompt h sp_arg = Ok sp_arg /\
     forall log r body,
       deploy_agent h srv agent [] = (log, r) ->
       In (ReqPost ASSISTANTS_URL body) log ->
       exists cc, configurable_of body = Some cc /\
                  assoc_lookup "type==agent/system_message" cc = Some sp_arg) /\
  (forall e, read_text_file h sp_arg = Err e -> is_oserror e = false ->
     deploy_agent h srv agent [] = ([], Err e)) /\
  (forall system_prompt rp_arg e,
     resolve_system_prompt h sp_arg = Ok system_prompt ->
     getitem agent "retrieval-prompt" = Ok rp_arg ->
     read_text_file h rp_arg = Err e ->
     deploy_agent h srv agent [] = ([], Err e)).
Proof.
  intros Hname Hspa. split; [| split].
  - intros e Hread Hos.
    assert (Hres : resolve_system_prompt h sp_arg = Ok sp_arg)
      by (unfold resolve_system_prompt; rewrite Hread, Hos; reflexivity).
    split; [exact Hres |].
    intros log r body Hrun Hin.
    destruct (deploy_agent_assistant_post h srv agent log r body Hrun Hin)
      as (spa & sp & rpa & rp & tools & name' & model & desc &
          Hspa' & Hsp & _ & _ & _ & _ & _ & _ & ->).
    rewrite Hspa in Hspa'; inversion Hspa'; subst spa.
    rewrite Hres in Hsp; inversion Hsp; subst sp.
    eexists; split; reflexivity.
  - intros e Hread Hos.
    unfold deploy_agent, dbind, dlift. rewrite Hname, Hspa; simpl.
    unfold resolve_system_prompt at 1. rewrite Hread, Hos. reflexivity.
  - intros sp rpa e Hsp Hrpa Hread.
    unfold deploy_agent, dbind, dlift. rewrite Hname, Hspa; simpl.
    rewrite Hsp, Hrpa, Hread. reflexivity.
Qed.

Lemma deploy_agent_prompt_resolution_witness :
  resolve_system_prompt demo_host (JStr "You are a tutor.") = Ok (JStr "You are a tutor.") /\
  deploy_agent demo_host_undecodable demo_service demo_agent_runbook_file []
    = ([], Err UnicodeDecodeError) /\
  deploy_agent demo_host demo_service
    (JObj [("name", JStr "Tutor"); ("system-prompt", JStr "You are a tutor.");
           ("retrieval-prompt", JStr "missing.md")])
    [] = ([], Err (FileNotFoundError "/opt/runbook-tutor/missing.md")).
Proof.
  split; [| split].
  - exact (proj1 (proj1 (deploy_agent_prompt_resolution demo_host demo_service demo_agent
             (JStr "Tutor") (JStr "You are a tutor.") eq_refl eq_refl)
           (FileNotFoundError "/opt/runbook-tutor/You are a tutor.") eq_refl eq_refl)).
  - exact (proj1 (proj2 (deploy_agent_prompt_resolution demo_host_undecodable demo_service
             demo_agent_runbook_file (JStr "Tutor") (JStr "runbook.md") eq_refl eq_refl))
           UnicodeDecodeError eq_refl eq_refl).
  - exact (proj2 (proj2 (deploy_agent_prompt_resolution demo_host demo_service
             (JObj [("name", JStr "Tutor"); ("system-prompt", JStr "You are a tutor.");
                    ("retrieval-prompt", JStr "missing.md")])
             (JStr "Tutor") (JStr "You are a tutor.") eq_refl eq_refl))
           (JStr "You are a tutor.") (JStr "missing.md") (FileNotFoundError "/opt/runbook-tutor/missing.md")
           eq_refl eq_refl eq_refl).
Defined.






(** ** The thread summary *)

Definition THREADS_URL : string := BASE ++ "/threads/".

(** The threads of [assistant_id], in list order. *)
Definition matches (assistant_id : string) (t : json) : bool :=
  match getitem t "assistant_id" with
  | Ok a => is_str a assistant_id
  | Err _ => false
  end.

Definition matching (assistant_id : string) (ts : list json) : list json :=
  filter (matches assistant_id) ts.

(** A parser standing for [datetime.fromisoformat]. *)
Definition iso_parser : Type := string -> option datetime.

(** Whether a datetime is naive (has no UTC offset). *)
Definition naive (d : datetime) : bool :=
  match dt_offset d with Some _ => false | None => true end.

(** The order [>] compares: the UTC instant of an aware datetime and the
    wall-clock time of a naive one, in microseconds. *)
Definition inst (d : datetime) : Z :=
  dt_local d - match dt_offset d with Some o => o | None => 0 end.

(** Every thread has an [assistant_id], and the [updated_at] of every
    thread of the assistant parses, with a UTC offset for all of them or
    for none (a trailing [Z] reads as [+00:00]); on other lists the program
    raises before it requests a history. *)
Definition threads_wf (fromiso : iso_parser) (assistant_id : string) (ts : list json) : Prop :=
  Forall (fun t => exists a, getitem t "assistant_id" = Ok a) ts /\
  exists k, Forall (fun t => exists d, thread_updated_at fromiso t = Ok d /\ naive d = k)
                   (matching assistant_id ts).

(** No two distinct threads of the assistant share an [updated_at]. *)
Definition distinct_stamps (fromiso : iso_parser) (assistant_id : string) (ts : list json) : Prop :=
  forall t1 t2 d1 d2,
    In t1 (matching assistant_id ts) -> In t2 (matching assistant_id ts) ->
    thread_updated_at fromiso t1 = Ok d1 -> thread_updated_at fromiso t2 = Ok d2 ->
    inst d1 = inst d2 -> t1 = t2.

Lemma filter_threads_ok aid ts :
  Forall (fun t => exists a, getitem t "assistant_id" = Ok a) ts ->
  filter_threads aid ts = Ok (matching aid ts).
Proof.
  induction 1 as [| t ts [a Ha] _ IH]; [reflexivity |].
  cbn [filter_threads]. rewrite Ha. cbn [bind]. rewrite IH. cbn [bind].
  unfold matching; cbn [filter]. unfold matches; rewrite Ha. reflexivity.
Qed.

Lemma stamp_threads_ok (fromiso : iso_parser) k ms :
  Forall (fun t => exists d, thread_updated_at fromiso t = Ok d /\ naive d = k) ms ->
  exists ps, stamp_threads fromiso ms = Ok ps /\ map fst ps = ms /\
             Forall (fun p => thread_updated_at fromiso (fst p) = Ok (snd p) /\ naive (snd p) = k) ps.
Proof.
  induction 1 as [| t ms [d [Hd Ha]] _ [ps [Hps [Hfst Hall]]]];
    [exists []; repeat split; constructor |].
  exists ((t, d) :: ps). simpl. rewrite Hd; simpl. rewrite Hps; simpl.
  split; [reflexivity |]. split; [rewrite Hfst; reflexivity |].
  constructor; [split; assumption | exact Hall].
Qed.

Lemma dt_gt_same a b :
  naive a = naive b -> dt_gt a b = Ok (Z.gtb (inst a) (inst b)).
Proof.
  unfold naive, dt_gt, inst.
  destruct (dt_offset a), (dt_offset b); intros Hk; try discriminate; try reflexivity.
  rewrite !Z.sub_0_r. reflexivity.
Qed.

Lemma max_from_spec (best : json * datetime) items k :
  naive (snd best) = k -> Forall (fun p => naive (snd p) = k) items ->
  exists r, max_from best items = Ok r /\ In r (best :: items) /\
            forall x, In x (best :: items) -> inst (snd x) <= inst (snd r).
Proof.
  revert best; induction items as [| it rest IH]; intros best Hb Hall.
  - exists best; split; [reflexivity |]. split; [left; reflexivity |].
    intros x [-> | []]; lia.
  - pose proof (Forall_inv Hall) as Hit; pose proof (Forall_inv_tail Hall) as Hrest.
    simpl. rewrite (dt_gt_same _ _ (eq_trans Hit (eq_sym Hb))); simpl.
    destruct (Z.gtb (inst (snd it)) (inst (snd best))) eqn:Hgt.
    + destruct (IH it Hit Hrest) as [r [Hr [Hin Hmax]]].
      exists r; split; [exact Hr |]. split; [right; exact Hin |].
      apply Z.gtb_lt in Hgt.
      intros x [<- | Hx]; [specialize (Hmax it (or_introl eq_refl)); lia | exact (Hmax x Hx)].
    + destruct (IH best Hb Hrest) as [r [Hr [Hin Hmax]]].
      exists r; split; [exact Hr |].
      split; [destruct Hin as [<- | Hin]; [left; reflexivity | right; right; exact Hin] |].
      rewrite Z.gtb_ltb, Z.ltb_ge in Hgt.
      intros x [<- | [<- | Hx]].
      * exact (Hmax _ (or_introl eq_refl)).
      * specialize (Hmax best (or_introl eq_refl)); lia.
      * exact (Hmax x (or_intror Hx)).
Qed.

Lemma py_max_spec ps k :
  ps <> [] -> Forall (fun p => naive (snd p) = k) ps ->
  exists r, py_max ps = Ok r /\ In r ps /\ forall x, In x ps -> inst (snd x) <= inst (snd r).
Proof.
  destruct ps as [| p ps]; [congruence |]. intros _ Hall.
  inversion Hall; subst. exact (max_from_spec p ps (naive (snd p)) eq_refl H2).
Qed.

Lemma matching_perm aid ts ts' :
  Permutation ts ts' -> Permutation (matching aid ts) (matching aid ts').
Proof.
  unfold matching; induction 1; simpl.
  - constructor.
  - destruct (matches aid x); [constructor |]; assumption.
  - destruct (matches aid x), (matches aid y); try constructor; reflexivity.
  - eapply perm_trans; eassumption.
Qed.

Lemma string_length_append (a b : string) :
  String.length (a ++ b) = (String.length a + String.length b)%nat.
Proof. induction a as [| c a IH]; simpl; [reflexivity | rewrite IH; reflexivity]. Qed.

Lemma history_url_ne (thread_id : string) :
  BASE ++ "/threads/" ++ thread_id ++ "/history" <> THREADS_URL.
Proof.
  intros Heq. apply (f_equal String.length) in Heq.
  unfold THREADS_URL in Heq. rewrite !string_length_append in Heq. simpl in Heq. lia.
Qed.

Lemma get_latest_thread_unfold (fromiso : iso_parser) srv aid ts :
  content (http_get srv THREADS_URL) = Some (JList ts) ->
  Forall (fun t => exists a, getitem t "assistant_id" = Ok a) ts ->
  get_latest_thread fromiso srv aid =
  match matching aid ts with
  | [] => Ok "Did not find threads"
  | _ :: _ =>
      let* stamped := stamp_threads fromiso (matching aid ts) in
      let* latest := py_max stamped in
      summarize_thread srv (fst latest)
  end.
Proof.
  intros Hts Hall. unfold get_latest_thread, resp_json at 1.
  change (BASE ++ "/threads/") with THREADS_URL. rewrite Hts. cbn [bind py_iter].
  rewrite (filter_threads_ok aid ts Hall). reflexivity.
Qed.

(** The thread [get_latest_thread] summarises, when the assistant has one. *)
Lemma get_latest_thread_choice (fromiso : iso_parser) srv aid ts :
  content (http_get srv THREADS_URL) = Some (JList ts) ->
  threads_wf fromiso aid ts ->
  matching aid ts <> [] ->
  exists best d,
    In best (matching aid ts) /\ thread_updated_at fromiso best = Ok d /\
    (forall t d', In t (matching aid ts) -> thread_updated_at fromiso t = Ok d' -> inst d' <= inst d) /\
    get_latest_thread fromiso srv aid = summarize_thread srv best.
Proof.
  intros Hts [Hids [k Hstamps]] Hne.
  rewrite (get_latest_thread_unfold fromiso srv aid ts Hts Hids).
  destruct (stamp_threads_ok fromiso k _ Hstamps) as [ps [Hps [Hfst Hall]]].
  assert (Hpsne : ps <> []) by (intros ->; simpl in Hfst; congruence).
  destruct (py_max_spec ps k Hpsne (Forall_impl _ (fun p H => proj2 H) Hall))
    as [r [Hr [Hin Hmax]]].
  exists (fst r), (snd r).
  assert (Hr_ok : thread_updated_at fromiso (fst r) = Ok (snd r) /\ naive (snd r) = k)
    by (rewrite Forall_forall in Hall; exact (Hall r Hin)).
  split; [rewrite <- Hfst; apply in_map; exact Hin |].
  split; [exact (proj1 Hr_ok) |].
  split.
  - intros t d' Ht Hd'. rewrite <- Hfst in Ht. apply in_map_iff in Ht as [x [<- Hx]].
    rewrite Forall_forall in Hall. destruct (Hall x Hx) as [Hxd _].
    rewrite Hxd in Hd'; inversion Hd'; subst d'. exact (Hmax x Hx).
  - destruct (matching aid ts) as [| t0 ms]; [congruence |].
    rewrite Hps; cbn [bind]. rewrite Hr; reflexivity.
Qed.

(** C6: for every parser standing for [datetime.fromisoformat], on a
    thread list whose entries carry an [assistant_id] and whose entries for
    the assistant carry an [updated_at] that parses (a trailing [Z] read as
    [+00:00]), all with a UTC offset or all without: with no thread of the
    assistant the result is exactly ["Did not find threads"]; otherwise the
    summary is that of one of the assistant's threads with the greatest
    [updated_at], built from that thread's history; and when no two of the
    assistant's threads share a timestamp, the result does not depend on
    the order of the thread list. *)
Theorem get_latest_thread_selects_latest (fromiso : iso_parser) (srv : service) (aid : string)
    (ts : list json) :
  content (http_get srv THREADS_URL) = Some (JList ts) ->
  threads_wf fromiso aid ts ->
  (matching aid ts = [] -> get_latest_thread fromiso srv aid = Ok "Did not find threads") /\
  (matching aid ts <> [] ->
   exists best d,
     In best (matching aid ts) /\ thread_updated_at fromiso best = Ok d /\
     (forall t d', In t (matching aid ts) -> thread_updated_at fromiso t = Ok d' -> inst d' <= inst d) /\
     get_latest_thread fromiso srv aid = summarize_thread srv best) /\
  (forall srv' ts',
     (forall url, url <> THREADS_URL -> http_get srv' url = http_get srv url) ->
     content (http_get srv' THREADS_URL) = Some (JList ts') ->
     Permutation ts ts' ->
     distinct_stamps fromiso aid ts ->
     get_latest_thread fromiso srv' aid = get_latest_thread fromiso srv aid).
Proof.
  intros Hts Hwf. split; [| split].
  - intros Hnil. destruct Hwf as [Hids _].
    rewrite (get_latest_thread_unfold fromiso srv aid ts Hts Hids), Hnil. reflexivity.
  - exact (get_latest_thread_choice fromiso srv aid ts Hts Hwf).
  - intros srv' ts' Hsame Hts' Hperm Hdist.
    assert (Hmp : Permutation (matching aid ts) (matching aid ts')) by (apply matching_perm; exact Hperm).
    destruct Hwf as [Hids [k Hstamps]].
    assert (Hwf' : threads_wf fromiso aid ts').
    { split; [| exists k].
      - rewrite Forall_forall in *. intros t Ht. apply Hids. apply Permutation_in with ts';
          [symmetry; exact Hperm | exact Ht].
      - rewrite Forall_forall in *. intros t Ht. apply Hstamps. apply Permutation_in with (matching aid ts');
          [symmetry; exact Hmp | exact Ht]. }
    assert (Hwf : threads_wf fromiso aid ts) by (split; [| exists k]; assumption).
    destruct (matching aid ts) as [| m0 ms] eqn:Hm.
    + apply Permutation_nil in Hmp.
      rewrite (get_latest_thread_unfold fromiso srv aid ts Hts Hids), Hm.
      rewrite (get_latest_thread_unfold fromiso srv' aid ts' Hts' (proj1 Hwf')), Hmp. reflexivity.
    + rewrite <- Hm in Hmp.
      assert (Hne' : matching aid ts' <> []).
      { intros Hnil; rewrite Hnil in Hmp; apply Permutation_sym, Permutation_nil in Hmp; congruence. }
      assert (Hne : matching aid ts <> []) by (rewrite Hm; discriminate).
      destruct (get_latest_thread_choice fromiso srv aid ts Hts Hwf Hne)
        as [b1 [d1 [Hin1 [Hd1 [Hmax1 Hr1]]]]].
      destruct (get_latest_thread_choice fromiso srv' aid ts' Hts' Hwf' Hne')
        as [b2 [d2 [Hin2 [Hd2 [Hmax2 Hr2]]]]].
      assert (Hin2' : In b2 (matching aid ts))
        by (apply Permutation_in with (matching aid ts'); [symmetry; exact Hmp | exact Hin2]).
      assert (Hin1' : In b1 (matching aid ts')) by (apply Permutation_in with (matching aid ts); assumption).
      specialize (Hmax1 b2 d2 Hin2' Hd2). specialize (Hmax2 b1 d1 Hin1' Hd1).
      assert (Heq : b1 = b2) by (apply (Hdist b1 b2 d1 d2 Hin1 Hin2' Hd1 Hd2); lia).
      subst b2. rewrite Hr1, Hr2.
      unfold summarize_thread. destruct (getitem b1 "thread_id") as [tid | e]; cbn [bind]; [| reflexivity].
      rewrite Hsame by apply history_url_ne. reflexivity.
Qed.

(** Two threads of assistant ["A"], the later one holding a three-message
    conversation. *)
Definition demo_thread (id stamp : string) : json :=
  JObj [("assistant_id", JStr "A"); ("thread_id", JStr id); ("updated_at", JStr stamp)].

Definition demo_t1 : json := demo_thread "t1" "2024-01-01T00:00:00Z".
Definition demo_t2 : json := demo_thread "t2" "2024-02-01T00:00:00Z".

Definition xs (n : nat) : string := string_of_list_ascii (repeat "x"%char n).

Definition demo_messages : list json :=
  [JObj [("type", JStr "human"); ("content", JStr "hi")];
   JObj [("type", JStr "ai"); ("content", JStr "hello"); ("tool_calls", JList [])];
   JObj [("type", JStr "tool"); ("name", JStr "search"); ("content", JStr (xs 150))]].

Definition history_of (messages : list json) : http_resp :=
  {| status_code := 200;
     content := Some (JList [JObj [("values", JObj [("messages", JList messages)])]]) |}.

Definition demo_thread_service (ts : list json) : service := {|
  http_get := fun url =>
    if String.eqb url THREADS_URL then {| status_code := 200; content := Some (JList ts) |}
    else if String.eqb url (BASE ++ "/threads/t2/history") then history_of demo_messages
    else if String.eqb url (BASE ++ "/threads/t1/history") then history_of []
    else {| status_code := 404; content := None |};
  http_post := fun _ _ => {| status_code := 404; content := None |};
  http_post_file := fun _ _ _ _ => {| status_code := 404; content := None |};
  http_put := fun _ _ => {| status_code := 404; content := None |}
|}.

Definition demo_transcript : string :=
  "Human: hi" ++ nl ++ nl ++ "AI: hello" ++ nl ++ nl ++
  "Tool: search" ++ nl ++ "  Response: " ++ xs 100.

(** Every thread of the assistant stamped, all with an offset or all
    without. *)
Ltac threads_wf_by k :=
  split; [repeat constructor; eexists; reflexivity
         | exists k; simpl; repeat constructor; eexists; split; vm_compute; reflexivity].

Lemma demo_threads_wf : threads_wf fromisoformat "A" [demo_t1; demo_t2].
Proof. threads_wf_by false. Qed.

Lemma demo_distinct_stamps : distinct_stamps fromisoformat "A" [demo_t1; demo_t2].
Proof.
  intros a b d1 d2 Ha Hb Hda Hdb Heq. simpl in Ha, Hb.
  destruct Ha as [<- | [<- | []]], Hb as [<- | [<- | []]]; try reflexivity;
    vm_compute in Hda, Hdb; inversion Hda; inversion Hdb; subst; vm_compute in Heq; discriminate.
Qed.

(** The same two threads, stamped without offset, one without seconds and
    one with the date alone. *)
Definition demo_n1 : json := demo_thread "t1" "2024-01-01T00:00".
Definition demo_n2 : json := demo_thread "t2" "2024-02-01".

Lemma demo_naive_wf : threads_wf fromisoformat "A" [demo_n1; demo_n2].
Proof. threads_wf_by true. Qed.

Lemma demo_naive_distinct : distinct_stamps fromisoformat "A" [demo_n1; demo_n2].
Proof.
  intros a b d1 d2 Ha Hb Hda Hdb Heq. simpl in Ha, Hb.
  destruct Ha as [<- | [<- | []]], Hb as [<- | [<- | []]]; try reflexivity;
    vm_compute in Hda, Hdb; inversion Hda; inversion Hdb; subst; vm_compute in Heq; discriminate.
Qed.

Lemma get_latest_thread_selects_latest_witness :
  get_latest_thread fromisoformat (demo_thread_service [demo_t2; demo_t1]) "A"
    = get_latest_thread fromisoformat (demo_thread_service [demo_t1; demo_t2]) "A" /\
  get_latest_thread fromisoformat (demo_thread_service [demo_t1; demo_t2]) "A" = Ok demo_transcript /\
  get_latest_thread fromisoformat (demo_thread_service [demo_t1; demo_t2]) "B" = Ok "Did not find threads" /\
  get_latest_thread fromisoformat (demo_thread_service [demo_n2; demo_n1]) "A"
    = get_latest_thread fromisoformat (demo_thread_service [demo_n1; demo_n2]) "A".
Proof.
  split; [| split; [| split]].
  - apply (proj2 (proj2 (get_latest_thread_selects_latest fromisoformat
             (demo_thread_service [demo_t1; demo_t2])
             "A" [demo_t1; demo_t2] eq_refl demo_threads_wf))
           (demo_thread_service [demo_t2; demo_t1]) [demo_t2; demo_t1]).
    + intros url Hne. simpl. destruct (String.eqb url THREADS_URL) eqn:E; [| reflexivity].
      apply String.eqb_eq in E; contradiction.
    + reflexivity.
    + apply perm_swap.
    + exact demo_distinct_stamps.
  - vm_compute; reflexivity.
  - assert (Hwf : threads_wf fromisoformat "B" [demo_t1; demo_t2])
      by (split; [repeat constructor; eexists; reflexivity | exists true; constructor]).
    exact (proj1 (get_latest_thread_selects_latest fromisoformat
             (demo_thread_service [demo_t1; demo_t2])
             "B" [demo_t1; demo_t2] eq_refl Hwf) eq_refl).
  - apply (proj2 (proj2 (get_latest_thread_selects_latest fromisoformat
             (demo_thread_service [demo_n1; demo_n2])
             "A" [demo_n1; demo_n2] eq_refl demo_naive_wf))
           (demo_thread_service [demo_n2; demo_n1]) [demo_n2; demo_n1]).
    + intros url Hne. simpl. destruct (String.eqb url THREADS_URL) eqn:E; [| reflexivity].
      apply String.eqb_eq in E; contradiction.
    + reflexivity.
    + apply perm_swap.
    + exact demo_naive_distinct.
Defined.

(** ** Transcript rendering *)

(** A message as the spec describes it. *)
Inductive msg_view : Type :=
| MsgAI (content tool_calls : json)
| MsgHuman (content : json)
| MsgTool (name : json) (content : string)
| MsgOther (type : json).

(** The JSON message [m] has the fields of [v]. *)
Definition msg_has (m : json) (v : msg_view) : Prop :=
  match v with
  | MsgAI c tc =>
      getitem m "type" = Ok (JStr "ai") /\ getitem m "tool_calls" = Ok tc /\
      getitem m "content" = Ok c
  | MsgHuman c => getitem m "type" = Ok (JStr "human") /\ getitem m "content" = Ok c
  | MsgTool n c =>
      getitem m "type" = Ok (JStr "tool") /\ getitem m "name" = Ok n /\
      getitem m "content" = Ok (JStr c)
  | MsgOther ty =>
      getitem m "type" = Ok ty /\
      is_str ty "ai" = false /\ is_str ty "human" = false /\ is_str ty "tool" = false
  end.

(** The line the spec prescribes for a message, if any. *)
Definition spec_line (v : msg_view) : list string :=
  match v with
  | MsgAI c tc => if truthy tc then [] else ["AI: " ++ py_str c]
  | MsgHuman c => ["Human: " ++ py_str c]
  | MsgTool n c => ["Tool: " ++ py_str n ++ nl ++ "  Response: " ++ substring 0 100 c]
  | MsgOther _ => []
  end.

Lemma render_message_view m v :
  msg_has m v ->
  render_message m = Ok (match spec_line v with [l] => Some l | _ => None end).
Proof.
  destruct v as [c tc | c | n c | ty]; simpl.
  - intros (Hty & Htc & Hc). unfold render_message. rewrite Hty; cbn [bind is_str].
    simpl. rewrite Htc; cbn [bind]. destruct (truthy tc); simpl; [reflexivity |].
    rewrite Hc; reflexivity.
  - intros (Hty & Hc). unfold render_message. rewrite Hty; simpl. rewrite Hc; reflexivity.
  - intros (Hty & Hn & Hc). unfold render_message. rewrite Hty; simpl.
    rewrite Hn, Hc; reflexivity.
  - intros (Hty & Hai & Hh & Ht). unfold render_message. rewrite Hty; cbn [bind].
    rewrite Hai, Hh, Ht; reflexivity.
Qed.

Lemma render_messages_views ms vs :
  Forall2 msg_has ms vs -> render_messages ms = Ok (flat_map spec_line vs).
Proof.
  induction 1 as [| m v ms vs Hmv _ IH]; [reflexivity |].
  simpl. rewrite (render_message_view m v Hmv); cbn [bind]. rewrite IH; cbn [bind].
  destruct v as [c tc | c | n c | ty]; simpl; try reflexivity.
  destruct (truthy tc); reflexivity.
Qed.

Lemma summarize_thread_history srv t tid messages rest :
  getitem t "thread_id" = Ok tid ->
  content (http_get srv (BASE ++ "/threads/" ++ py_str tid ++ "/history")) =
    Some (JList (JObj [("values", JObj [("messages", JList messages)])] :: rest)) ->
  summarize_thread srv t =
    let* summary := render_messages messages in Ok (join (nl ++ nl) summary).
Proof.
  intros Htid Hh. unfold summarize_thread. rewrite Htid; cbn [bind].
  unfold resp_json at 1. rewrite Hh. reflexivity.
Qed.

(** C7: for messages with the fields their type needs, a plain [ai]
    message renders as ["AI: <content>"], a [human] one as
    ["Human: <content>"], a [tool] one as
    ["Tool: <name>\n  Response: <first 100 characters>"]; [ai] messages with
    tool calls and messages of other types are dropped; the lines of the
    chosen thread's history are joined with a blank line; and the
    three-message example renders exactly as the spec says. *)
Theorem get_latest_thread_transcript :
  (forall ms vs, Forall2 msg_has ms vs -> render_messages ms = Ok (flat_map spec_line vs)) /\
  (forall srv t tid messages rest vs,
     getitem t "thread_id" = Ok tid ->
     content (http_get srv (BASE ++ "/threads/" ++ py_str tid ++ "/history")) =
       Some (JList (JObj [("values", JObj [("messages", JList messages)])] :: rest)) ->
     Forall2 msg_has messages vs ->
     summarize_thread srv t = Ok (join (nl ++ nl) (flat_map spec_line vs))) /\
  (let* lines := render_messages demo_messages in Ok (join (nl ++ nl) lines))
    = Ok ("Human: hi" ++ nl ++ nl ++ "AI: hello" ++ nl ++ nl ++
          "Tool: search" ++ nl ++ "  Response: " ++ xs 100).
Proof.
  split; [exact render_messages_views |]. split.
  - intros srv t tid messages rest vs Htid Hh Hall.
    rewrite (summarize_thread_history srv t tid messages rest Htid Hh).
    rewrite (render_messages_views _ _ Hall). reflexivity.
  - vm_compute. reflexivity.
Qed.

Definition demo_views : list msg_view :=
  [MsgHuman (JStr "hi"); MsgAI (JStr "hello") (JList []); MsgTool (JStr "search") (xs 150)].

Lemma demo_message_views : Forall2 msg_has demo_messages demo_views.
Proof. repeat constructor. Qed.

Lemma get_latest_thread_transcript_witness :
  render_messages demo_messages = Ok ["Human: hi"; "AI: hello";
                                      "Tool: search" ++ nl ++ "  Response: " ++ xs 100] /\
  summarize_thread (demo_thread_service []) demo_t2 = Ok demo_transcript.
Proof.
  split.
  - exact (proj1 get_latest_thread_transcript demo_messages
             demo_views
             demo_message_views).
  - exact (proj1 (proj2 get_latest_thread_transcript) (demo_thread_service []) demo_t2 (JStr "t2")
             demo_messages []
             demo_views
             eq_refl eq_refl
             demo_message_views).
Defined.

Lemma render_messages_app pre post lines :
  render_messages pre = Ok lines ->
  render_messages (pre ++ post) =
    let* rest := render_messages post in Ok (lines ++ rest)%list.
Proof.
  revert lines; induction pre as [| m pre IH]; intros lines H.
  - simpl in H; inversion H; subst. simpl. destruct (render_messages post); reflexivity.
  - simpl in H |- *. destruct (render_message m) as [line | e]; cbn [bind] in H |- *; [| discriminate].
    destruct (render_messages pre) as [ls | e] eqn:Hpre; cbn [bind] in H; [| discriminate].
    inversion H; subst. rewrite (IH ls eq_refl); cbn [bind].
    destruct (render_messages post); cbn [bind]; [| reflexivity].
    destruct line; reflexivity.
Qed.

Lemma render_message_ai_missing m :
  getitem m "type" = Ok (JStr "ai") ->
  getitem m "tool_calls" = Err (KeyError "tool_calls") ->
  render_message m = Err (KeyError "tool_calls").
Proof.
  intros Hty Htc. unfold render_message. rewrite Hty; cbn [bind]. simpl. rewrite Htc. reflexivity.
Qed.

(** C10: an [ai] message without a [tool_calls] key is neither rendered nor
    dropped: once the messages before it render, the rendering, and with
    it the thread summary, fails with [KeyError('tool_calls')]; wherever
    it sits in the list, the rendering fails. *)
Theorem get_latest_thread_ai_needs_tool_calls :
  (forall pre m post lines,
     render_messages pre = Ok lines ->
     getitem m "type" = Ok (JStr "ai") ->
     getitem m "tool_calls" = Err (KeyError "tool_calls") ->
     render_messages (pre ++ m :: post) = Err (KeyError "tool_calls")) /\
  (forall ms m,
     In m ms ->
     getitem m "type" = Ok (JStr "ai") ->
     getitem m "tool_calls" = Err (KeyError "tool_calls") ->
     is_err (render_messages ms)) /\
  (forall srv t tid pre m post lines rest,
     getitem t "thread_id" = Ok tid ->
     content (http_get srv (BASE ++ "/threads/" ++ py_str tid ++ "/history")) =
       Some (JList (JObj [("values", JObj [("messages", JList (pre ++ m :: post))])] :: rest)) ->
     render_messages pre = Ok lines ->
     getitem m "type" = Ok (JStr "ai") ->
     getitem m "tool_calls" = Err (KeyError "tool_calls") ->
     summarize_thread srv t = Err (KeyError "tool_calls")).
Proof.
  assert (Hmid : forall pre m post lines,
     render_messages pre = Ok lines ->
     getitem m "type" = Ok (JStr "ai") ->
     getitem m "tool_calls" = Err (KeyError "tool_calls") ->
     render_messages (pre ++ m :: post) = Err (KeyError "tool_calls")).
  { intros pre m post lines Hpre Hty Htc.
    rewrite (render_messages_app pre (m :: post) lines Hpre). simpl.
    rewrite (render_message_ai_missing m Hty Htc). reflexivity. }
  split; [exact Hmid | split].
  - intros ms m Hin Hty Htc. induction ms as [| m0 ms IH]; [destruct Hin |].
    destruct Hin as [Heq | Hin].
    + subst m0. simpl. rewrite (render_message_ai_missing m Hty Htc). eexists; reflexivity.
    + simpl. destruct (render_message m0) as [l | e]; cbn [bind]; [| eexists; reflexivity].
      destruct (IH Hin) as [e He]. rewrite He. eexists; reflexivity.
  - intros srv t tid pre m post lines rest Htid Hh Hpre Hty Htc.
    rewrite (summarize_thread_history srv t tid (pre ++ m :: post) rest Htid Hh).
    rewrite (Hmid pre m post lines Hpre Hty Htc). reflexivity.
Qed.

Definition demo_messages_untooled : list json :=
  [JObj [("type", JStr "human"); ("content", JStr "hi")];
   JObj [("type", JStr "ai"); ("content", JStr "hello")]].

Lemma get_latest_thread_ai_needs_tool_calls_witness :
  render_messages demo_messages_untooled = Err (KeyError "tool_calls") /\
  is_err (render_messages (rev demo_messages_untooled)).
Proof.
  split.
  - exact (proj1 get_latest_thread_ai_needs_tool_calls
             [JObj [("type", JStr "human"); ("content", JStr "hi")]]
             (JObj [("type", JStr "ai"); ("content", JStr "hello")]) [] ["Human: hi"]
             eq_refl eq_refl eq_refl).
  - exact (proj1 (proj2 get_latest_thread_ai_needs_tool_calls) (rev demo_messages_untooled)
             (JObj [("type", JStr "ai"); ("content", JStr "hello")])
             (or_introl eq_refl) eq_refl eq_refl).
Defined.

(** ** Runbook lookup and update *)

Definition assistant_url (assistant_id : string) : string := BASE ++ "/assistants/" ++ assistant_id.

Definition runbook_key : string := "type==agent/system_message".

(** A service holding one assistant, whose PUT answers with [put_resp]. *)
Definition demo_assistant : json :=
  JObj [("assistant_id", JStr "a-1"); ("name", JStr "Tutor"); ("public", JBool false);
        ("config", JObj [("configurable", JObj [(runbook_key, JStr "old runbook")])])].

Definition demo_runbook_service (get_resp put_resp : http_resp) : service := {|
  http_get := fun _ => get_resp;
  http_post := fun _ _ => {| status_code := 404; content := None |};
  http_post_file := fun _ _ _ _ => {| status_code := 404; content := None |};
  http_put := fun _ _ => put_resp
|}.

(** The body [update_agent_runbook] PUTs, built from the fetched
    assistant [b] (lines 388-399), and what it makes of the PUT's answer
    (lines 403-407). *)
Definition runbook_put_body (b : json) (new_runbook : string) : result json :=
  let* name := getitem b "name" in
  let* public := getitem b "public" in
  let* config := getitem b "config" in
  let* configurable := getitem config "configurable" in
  let* configurable' := setitem configurable "type==agent/system_message" (JStr new_runbook) in
  let* config' := setitem config "configurable" configurable' in
  Ok (JObj [("name", name); ("config", config'); ("public", public)]).

Definition put_outcome (response : http_resp) : result string :=
  if Z.eqb (status_code response) 200 then Ok "Successfully updated!"
  else
    let* body := resp_json response in
    Ok ("Failed with status code: " ++ z_to_dec (status_code response)
        ++ ", message is " ++ py_str body).

(** C8 (counterexample): [update_agent_runbook] does raise: when the PUT
    fails with a body that is not JSON (a plain-text 500 page), and when
    the fetched assistant has no [name] (the service's 404 body). *)
Lemma update_agent_runbook_raises :
  update_agent_runbook
    (demo_runbook_service {| status_code := 200; content := Some demo_assistant |}
                          {| status_code := 500; content := None |})
    "a-1" "new runbook" = Err JSONDecodeError /\
  update_agent_runbook
    (demo_runbook_service {| status_code := 404; content := Some (JObj [("detail", JStr "Not Found")]) |}
                          {| status_code := 404; content := None |})
    "a-2" "new runbook" = Err (KeyError "name").
Proof. split; vm_compute; reflexivity. Qed.

(** C8 (amended): once the fetched assistant [b] is JSON, the update is
    the PUT of the body built from [b] alone, and the PUT is reached only
    when that body is built; so when [b] lacks [name], [public] or
    [config] (in that order of lookup), the update raises that error
    before any PUT, whatever the PUT would answer.  When [b] has [name],
    [public] and a dict [config] with a dict [configurable], the PUT sends
    [name], that config with its [system_message] replaced, and [public];
    a 200 answer yields exactly ["Successfully updated!"], any other
    status with a JSON body yields
    ["Failed with status code: <code>, message is <str(body)>"], and any
    other status with a non-JSON body raises. *)
Theorem update_agent_runbook_outcome (srv : service) (assistant_id new_runbook : string) (b : json) :
  content (http_get srv (assistant_url assistant_id)) = Some b ->
  (forall srv',
     http_get srv' (assistant_url assistant_id) = http_get srv (assistant_url assistant_id) ->
     update_agent_runbook srv' assistant_id new_runbook =
     match runbook_put_body b new_runbook with
     | Ok body => put_outcome (http_put srv' (assistant_url assistant_id) body)
     | Err e => Err e
     end) /\
  (forall e,
     getitem b "name" = Err e \/
     (exists name, getitem b "name" = Ok name /\ getitem b "public" = Err e) \/
     (exists name public, getitem b "name" = Ok name /\ getitem b "public" = Ok public /\
                          getitem b "config" = Err e) ->
     runbook_put_body b new_runbook = Err e /\
     forall srv',
       http_get srv' (assistant_url assistant_id) = http_get srv (assistant_url assistant_id) ->
       update_agent_runbook srv' assistant_id new_runbook = Err e) /\
  (forall name public ckvs cckvs,
     getitem b "name" = Ok name ->
     getitem b "public" = Ok public ->
     getitem b "config" = Ok (JObj ckvs) ->
     assoc_lookup "configurable" ckvs = Some (JObj cckvs) ->
     let payload :=
       JObj [("name", name);
             ("config", JObj (assoc_set "configurable"
                                (JObj (assoc_set runbook_key (JStr new_runbook) cckvs)) ckvs));
             ("public", public)] in
     let response := http_put srv (assistant_url assistant_id) payload in
     (status_code response = 200 ->
      update_agent_runbook srv assistant_id new_runbook = Ok "Successfully updated!") /\
     (forall body, status_code response <> 200 -> content response = Some body ->
      update_agent_runbook srv assistant_id new_runbook =
        Ok ("Failed with status code: " ++ z_to_dec (status_code response)
            ++ ", message is " ++ py_str body)) /\
     (status_code response <> 200 -> content response = None ->
      update_agent_runbook srv assistant_id new_runbook = Err JSONDecodeError)).
Proof.
  intros Hb.
  assert (Hsplit : forall srv',
     http_get srv' (assistant_url assistant_id) = http_get srv (assistant_url assistant_id) ->
     update_agent_runbook srv' assistant_id new_runbook =
     match runbook_put_body b new_runbook with
     | Ok body => put_outcome (http_put srv' (assistant_url assistant_id) body)
     | Err e => Err e
     end).
  { intros srv' Hg. unfold update_agent_runbook. unfold resp_json at 1 2 3.
    fold (assistant_url assistant_id). rewrite Hg, Hb; cbn [bind].
    unfold runbook_put_body.
    destruct (getitem b "name"); cbn [bind]; [| reflexivity].
    destruct (getitem b "public"); cbn [bind]; [| reflexivity].
    destruct (getitem b "config") as [config | e]; cbn [bind]; [| reflexivity].
    destruct (getitem config "configurable") as [cf | e]; cbn [bind]; [| reflexivity].
    destruct (setitem cf _ _) as [cf' | e]; cbn [bind]; [| reflexivity].
    destruct (setitem config _ _) as [config' | e]; cbn [bind]; reflexivity. }
  split; [exact Hsplit | split].
  - intros e Hmiss.
    assert (Hbody : runbook_put_body b new_runbook = Err e).
    { unfold runbook_put_body.
      destruct Hmiss as [He | [[name [Hn He]] | [name [public [Hn [Hp He]]]]]].
      - rewrite He. reflexivity.
      - rewrite Hn, He. reflexivity.
      - rewrite Hn, Hp, He. reflexivity. }
    split; [exact Hbody |].
    intros srv' Hg. rewrite (Hsplit srv' Hg), Hbody. reflexivity.
  - intros name public ckvs cckvs Hname Hpub Hcfg Hcc payload response.
    assert (Hrun : update_agent_runbook srv assistant_id new_runbook =
              if Z.eqb (status_code response) 200 then Ok "Successfully updated!"
              else let* body := resp_json response in
                   Ok ("Failed with status code: " ++ z_to_dec (status_code response)
                       ++ ", message is " ++ py_str body)).
    { unfold update_agent_runbook. unfold resp_json at 1 2 3.
      fold (assistant_url assistant_id). rewrite Hb; cbn [bind].
      rewrite Hname, Hpub, Hcfg; cbn [bind]. unfold getitem at 1. rewrite Hcc; cbn [bind setitem].
      reflexivity. }
    split; [| split].
    + intros H200. rewrite Hrun, H200. reflexivity.
    + intros body Hne Hbody. rewrite Hrun.
      destruct (Z.eqb_spec (status_code response) 200) as [E | _]; [contradiction |].
      unfold resp_json. rewrite Hbody. reflexivity.
    + intros Hne Hbody. rewrite Hrun.
      destruct (Z.eqb_spec (status_code response) 200) as [E | _]; [contradiction |].
      unfold resp_json. rewrite Hbody. reflexivity.
Qed.

Definition demo_put_failure : json := JObj [("detail", JStr "Internal Server Error")].

(** An assistant record without [public]; the PUT would succeed. *)
Definition demo_no_public : json := JObj [("name", JStr "Tutor")].

Lemma update_agent_runbook_outcome_witness :
  update_agent_runbook
    (demo_runbook_service {| status_code := 200; content := Some demo_no_public |}
                          {| status_code := 200; content := None |})
    "a-1" "new runbook" = Err (KeyError "public") /\
  update_agent_runbook
    (demo_runbook_service {| status_code := 200; content := Some demo_assistant |}
                          {| status_code := 500; content := Some demo_put_failure |})
    "a-1" "new runbook"
  = Ok ("Failed with status code: 500, message is {'detail': 'Internal Server Error'}").
Proof.
  split.
  { destruct (update_agent_runbook_outcome
                (demo_runbook_service {| status_code := 200; content := Some demo_no_public |}
                                      {| status_code := 200; content := None |})
                "a-1" "new runbook" demo_no_public eq_refl) as [_ [Hmiss _]].
    exact (proj2 (Hmiss (KeyError "public")
                   (or_intror (or_introl (ex_intro _ (JStr "Tutor") (conj eq_refl eq_refl)))))
                 _ eq_refl). }
  destruct (update_agent_runbook_outcome
              (demo_runbook_service {| status_code := 200; content := Some demo_assistant |}
                                    {| status_code := 500; content := Some demo_put_failure |})
              "a-1" "new runbook" demo_assistant eq_refl) as [_ [_ Hok]].
  destruct (Hok (JStr "Tutor") (JBool false)
              [("configurable", JObj [(runbook_key, JStr "old runbook")])]
              [(runbook_key, JStr "old runbook")] eq_refl eq_refl eq_refl eq_refl)
    as [_ [Hfail _]].
  rewrite (Hfail demo_put_failure); [vm_compute; reflexivity | discriminate | reflexivity].
Defined.

(** The spec's reading of the lookup: walk a dotted path through JSON
    objects, with no result when a step is missing or not an object. *)
Fixpoint json_path (v : json) (path : list string) : option json :=
  match path with
  | [] => Some v
  | k :: rest =>
      match v with
      | JObj kvs =>
          match assoc_lookup k kvs with
          | Some x => json_path x rest
          | None => None
          end
      | _ => None
      end
  end.

Definition RUNBOOK_NOT_FOUND : json := JStr "Did not find the runbook".

Lemma getitem_path (v : json) (k : string) (rest : list string) (w : json) :
  getitem v k = Ok w -> json_path v (k :: rest) = json_path w rest.
Proof.
  destruct v; cbn; try discriminate.
  match goal with |- context [assoc_lookup k ?kvs] => destruct (assoc_lookup k kvs) end; congruence.
Qed.

Lemma getitem_path_none (v : json) (k : string) (rest : list string) (e : exn) :
  getitem v k = Err e -> json_path v (k :: rest) = None.
Proof.
  destruct v; cbn; try reflexivity.
  match goal with |- context [assoc_lookup k ?kvs] => destruct (assoc_lookup k kvs) end; congruence.
Qed.

(** C9: [get_agent_runbook] returns exactly
    [config.configurable["type==agent/system_message"]] of the fetched
    assistant when that lookup succeeds, and the literal
    ["Did not find the runbook"] for every failure (body not JSON, a key
    missing, a step that is not a dict); it never raises. *)
Theorem get_agent_runbook_catch_all (srv : service) (assistant_id : string) :
  get_agent_runbook srv assistant_id =
    match content (http_get srv (assistant_url assistant_id)) with
    | Some b =>
        match json_path b ["config"; "configurable"; runbook_key] with
        | Some v => Ok v
        | None => Ok RUNBOOK_NOT_FOUND
        end
    | None => Ok RUNBOOK_NOT_FOUND
    end /\
  exists v, get_agent_runbook srv assistant_id = Ok v.
Proof.
  assert (Heq : get_agent_runbook srv assistant_id =
    match content (http_get srv (assistant_url assistant_id)) with
    | Some b =>
        match json_path b ["config"; "configurable"; runbook_key] with
        | Some v => Ok v
        | None => Ok RUNBOOK_NOT_FOUND
        end
    | None => Ok RUNBOOK_NOT_FOUND
    end).
  { unfold get_agent_runbook, resp_json. fold (assistant_url assistant_id).
    destruct (content (http_get srv (assistant_url assistant_id))) as [b |]; cbn [bind];
      [| reflexivity].
    destruct (getitem b "config") as [c | e] eqn:Hc; cbn [bind];
      [rewrite (getitem_path _ _ _ _ Hc) | rewrite (getitem_path_none _ _ _ _ Hc); reflexivity].
    destruct (getitem c "configurable") as [cc | e'] eqn:Hcc; cbn [bind];
      [rewrite (getitem_path _ _ _ _ Hcc) | rewrite (getitem_path_none _ _ _ _ Hcc); reflexivity].
    destruct (getitem cc runbook_key) as [v | e''] eqn:Hv;
      unfold runbook_key in Hv; rewrite Hv;
      [rewrite (getitem_path _ _ _ _ Hv) | rewrite (getitem_path_none _ _ _ _ Hv)];
      reflexivity. }
  split; [exact Heq |].
  rewrite Heq.
  destruct (content _) as [b |]; [destruct (json_path b _) |]; eexists; reflexivity.
Qed.

(** * Further properties of the module *)

(** ** The request sequence of [deploy_agent] *)

Definition INGEST_URL : string := "http://localhost:8100/ingest".
Definition THREADS_POST_URL : string := "http://localhost:8100/threads".

(** The MIME type the upload loop sends for a file (line 182). *)
Definition upload_mime (h : host) (p : string) : string :=
  match guess_type h p with Some m => m | None => "application/octet-stream" end.

Definition upload_req (h : host) (aid : json) (p : string) : request :=
  ReqPostFile INGEST_URL (basename p) (upload_mime h p) aid.

Definition welcome_thread (aid : json) : json :=
  JObj [("name", JStr "Welcome"); ("assistant_id", aid);
        ("starting_message", JStr "Hi! How can I help you with today?")].

Lemma upload_files_ok h srv aid fs log log' :
  upload_files h srv aid fs log = (log', Ok tt) ->
  exists ps, fs = map JStr ps /\ Forall (fun p => open_binary h p = Ok tt) ps /\
             log' = app log (map (upload_req h aid) ps).
Proof.
  revert log; induction fs as [| f rest IH]; intros log H; simpl in H.
  - inversion H; subst. exists []. split; [reflexivity |]. split; [constructor |].
    symmetry; apply app_nil_r.
  - unfold dbind, dlift, post_file in H.
    destruct f as [| | | s | |]; try (inversion H; fail).
    destruct (open_binary h s) as [[] | e] eqn:Ho; [| inversion H].
    apply IH in H as [ps [Hfs [Hall Hlog]]].
    exists (s :: ps). split; [rewrite Hfs; reflexivity |].
    split; [constructor; assumption |].
    rewrite Hlog, <- app_assoc. reflexivity.
Qed.

Lemma upload_files_stop h srv aid ps p e rest log :
  Forall (fun q => open_binary h q = Ok tt) ps -> open_binary h p = Err e ->
  upload_files h srv aid (map JStr ps ++ JStr p :: rest) log =
  (app log (map (upload_req h aid) ps), Err e).
Proof.
  intros Hall Hp. revert log; induction Hall as [| q ps Hq _ IH]; intros log; simpl.
  - unfold dbind, dlift. rewrite Hp. rewrite app_nil_r. reflexivity.
  - unfold dbind, dlift, post_file. rewrite Hq. rewrite IH.
    rewrite <- app_assoc. reflexivity.
Qed.

Lemma getitem_has_key v k x : getitem v k = Ok x -> has_key k v = true.
Proof.
  destruct v; simpl; try discriminate.
  destruct (assoc_lookup k kvs); [reflexivity | discriminate].
Qed.

Lemma deploy_agent_ok_log (h : host) (srv : service) (agent : json) log aid tid :
  deploy_agent h srv agent [] = (log, Ok (aid, tid)) ->
  exists P a ps t,
    log = ([ReqPost ASSISTANTS_URL P] ++ map (upload_req h aid) ps
           ++ [ReqPost THREADS_POST_URL (welcome_thread aid)])%list /\
    resp_json (http_post srv ASSISTANTS_URL P) = Ok a /\ getitem a "assistant_id" = Ok aid /\
    (if has_key "files" agent
     then exists fv, getitem agent "files" = Ok fv /\ py_iter fv = Ok (map JStr ps)
     else ps = []) /\
    resp_json (http_post srv THREADS_POST_URL (welcome_thread aid)) = Ok t /\
    getitem t "thread_id" = Ok tid.
Proof.
  intros H. unfold deploy_agent, dbind, dlift, post, dret in H.
  destruct (getitem agent "name") as [n0 | e] eqn:Hname; simpl in H; [| inversion H].
  destruct (getitem agent "system-prompt") as [spa | e]; simpl in H; [| inversion H].
  destruct (resolve_system_prompt h spa) as [sp | e]; simpl in H; [| inversion H].
  destruct (getitem agent "retrieval-prompt") as [rpa | e]; simpl in H; [| inversion H].
  destruct (read_text_file h rpa) as [rp | e]; simpl in H; [| inversion H].
  destruct (agent_tools agent) as [tools | e]; simpl in H; [| inversion H].
  destruct (getitem agent "model") as [model | e]; simpl in H; [| inversion H].
  destruct (getitem agent "description") as [desc | e]; simpl in H; [| inversion H].
  set (P := assistant_payload n0 rp model sp tools desc) in *.
  destruct (resp_json (http_post srv ASSISTANTS_URL P)) as [a | e] eqn:Ha; simpl in H; [| inversion H].
  destruct (getitem a "assistant_id") as [aid' | e] eqn:Haid; simpl in H; [| inversion H].
  match type of H with
  | context [match ?blk [ReqPost ASSISTANTS_URL P] with pair _ _ => _ end] =>
      destruct (blk [ReqPost ASSISTANTS_URL P]) as [l1 [[] | e]] eqn:Hb; [| inversion H]
  end.
  assert (Hfiles : exists ps, l1 = app [ReqPost ASSISTANTS_URL P] (map (upload_req h aid') ps) /\
    (if has_key "files" agent
     then exists fv, getitem agent "files" = Ok fv /\ py_iter fv = Ok (map JStr ps)
     else ps = [])).
  { revert Hb; destruct (has_key "files" agent); simpl; intros Hb.
    2: { inversion Hb; subst. exists []. split; [reflexivity | reflexivity]. }
    destruct (getitem agent "files") as [fv | e] eqn:Hfv; simpl in Hb; [| inversion Hb].
    destruct (py_iter fv) as [fs | e] eqn:Hit; simpl in Hb; [| inversion Hb].
    apply upload_files_ok in Hb as [ps [-> [_ ->]]].
    exists ps. split; [reflexivity | exists fv; split; [reflexivity | exact Hit]]. }
  destruct Hfiles as [ps [Hl1 Hps]].
  destruct (resp_json (http_post srv "http://localhost:8100/threads" _)) as [t | e] eqn:Ht;
    simpl in H; [| inversion H].
  destruct (getitem t "thread_id") as [tid' | e] eqn:Htid; simpl in H; [| inversion H].
  inversion H; subst.
  exists P, a, ps, t. split; [reflexivity |].
  repeat split; assumption.
Qed.

(** After a successful deployment, the requests sent are exactly: the
    assistant-creation POST, one upload per entry of [agent["files"]] in
    order (its base name, the MIME type guessed for it or
    [application/octet-stream], and the new [assistant_id]), and the POST
    creating the ["Welcome"] thread; the returned ids are the ones the
    service answered. *)
Theorem deploy_agent_requests (h : host) (srv : service) (agent : json) log aid tid :
  deploy_agent h srv agent [] = (log, Ok (aid, tid)) ->
  exists P a ps t,
    log = ([ReqPost ASSISTANTS_URL P] ++ map (upload_req h aid) ps
           ++ [ReqPost THREADS_POST_URL (welcome_thread aid)])%list /\
    resp_json (http_post srv ASSISTANTS_URL P) = Ok a /\ getitem a "assistant_id" = Ok aid /\
    (if has_key "files" agent
     then exists fv, getitem agent "files" = Ok fv /\ py_iter fv = Ok (map JStr ps)
     else ps = []) /\
    resp_json (http_post srv THREADS_POST_URL (welcome_thread aid)) = Ok t /\
    getitem t "thread_id" = Ok tid.
Proof. exact (deploy_agent_ok_log h srv agent log aid tid). Qed.

(** Rewrites a deployment up to its creation POST, once the pieces of
    the payload are known. *)
Lemma deploy_agent_after_payload h srv agent spa sp rpa rp tools n0 model desc :
  getitem agent "system-prompt" = Ok spa ->
  resolve_system_prompt h spa = Ok sp ->
  getitem agent "retrieval-prompt" = Ok rpa ->
  read_text_file h rpa = Ok rp ->
  agent_tools agent = Ok tools ->
  getitem agent "name" = Ok n0 ->
  getitem agent "model" = Ok model ->
  getitem agent "description" = Ok desc ->
  deploy_agent h srv agent [] =
  (let P := assistant_payload n0 rp model sp tools desc in
   match resp_json (http_post srv ASSISTANTS_URL P) with
   | Err e => ([ReqPost ASSISTANTS_URL P], Err e)
   | Ok a =>
       match getitem a "assistant_id" with
       | Err e => ([ReqPost ASSISTANTS_URL P], Err e)
       | Ok aid =>
           match (if has_key "files" agent then
                    let! fv := dlift (getitem agent "files") in
                    let! fs := dlift (py_iter fv) in
                    upload_files h srv aid fs
                  else dret tt) [ReqPost ASSISTANTS_URL P] with
           | (l1, Err e) => (l1, Err e)
           | (l1, Ok _) =>
               match resp_json (http_post srv THREADS_POST_URL (welcome_thread aid)) with
               | Err e => (app l1 [ReqPost THREADS_POST_URL (welcome_thread aid)], Err e)
               | Ok t =>
                   match getitem t "thread_id" with
                   | Err e => (app l1 [ReqPost THREADS_POST_URL (welcome_thread aid)], Err e)
                   | Ok tid => (app l1 [ReqPost THREADS_POST_URL (welcome_thread aid)], Ok (aid, tid))
                   end
               end
           end
       end
   end).
Proof.
  intros H1 H2 H3 H4 H5 H6 H7 H8.
  unfold deploy_agent, dbind, dlift, post, dret.
  rewrite H6, H1; simpl. rewrite H2; simpl. rewrite H3; simpl. rewrite H4; simpl.
  rewrite H5; simpl. rewrite H7; simpl. rewrite H8; simpl.
  destruct (resp_json _) as [a | e]; [| reflexivity].
  destruct (getitem a "assistant_id") as [aid | e]; [| reflexivity].
  destruct (_ [ReqPost ASSISTANTS_URL _]) as [l1 [u | e]]; [| reflexivity].
  destruct (resp_json _) as [t | e]; [| reflexivity].
  destruct (getitem t "thread_id"); reflexivity.
Qed.

(** When the service's answer to the assistant-creation POST is not JSON
    or carries no [assistant_id], [deploy_agent] fails and that POST is
    the only request it sent: no file is uploaded and no thread created. *)
Theorem deploy_agent_stops_without_assistant_id (h : host) (srv : service) (agent : json)
    log r P :
  deploy_agent h srv agent [] = (log, r) ->
  In (ReqPost ASSISTANTS_URL P) log ->
  (forall a, resp_json (http_post srv ASSISTANTS_URL P) = Ok a ->
             is_err (getitem a "assistant_id")) ->
  log = [ReqPost ASSISTANTS_URL P] /\ is_err r.
Proof.
  intros Hrun Hin Hbad.
  destruct (deploy_agent_assistant_post h srv agent log r P Hrun Hin)
    as (spa & sp & rpa & rp & tools & n0 & model & desc & H1 & H2 & H3 & H4 & H5 & H6 & H7 & H8 & HP).
  rewrite (deploy_agent_after_payload h srv agent spa sp rpa rp tools n0 model desc
             H1 H2 H3 H4 H5 H6 H7 H8) in Hrun.
  cbv zeta in Hrun. rewrite <- HP in Hrun.
  destruct (resp_json (http_post srv ASSISTANTS_URL P)) as [a | e] eqn:Ha.
  - destruct (Hbad a eq_refl) as [e He]. rewrite He in Hrun.
    inversion Hrun; subst. split; [reflexivity | exists e; reflexivity].
  - inversion Hrun; subst. split; [reflexivity | exists e; reflexivity].
Qed.

(** When the [i]-th entry of [agent["files"]] cannot be opened while the
    entries before it can, [deploy_agent] fails with that error after
    uploading exactly the earlier entries, and creates no thread. *)
Theorem deploy_agent_upload_failure (h : host) (srv : service) (agent : json)
    log r P a aid ps p e rest :
  deploy_agent h srv agent [] = (log, r) ->
  In (ReqPost ASSISTANTS_URL P) log ->
  resp_json (http_post srv ASSISTANTS_URL P) = Ok a ->
  getitem a "assistant_id" = Ok aid ->
  getitem agent "files" = Ok (JList (map JStr ps ++ JStr p :: rest)) ->
  Forall (fun q => open_binary h q = Ok tt) ps ->
  open_binary h p = Err e ->
  log = ReqPost ASSISTANTS_URL P :: map (upload_req h aid) ps /\ r = Err e.
Proof.
  intros Hrun Hin Ha Haid Hf Hok Hp.
  destruct (deploy_agent_assistant_post h srv agent log r P Hrun Hin)
    as (spa & sp & rpa & rp & tools & n0 & model & desc & H1 & H2 & H3 & H4 & H5 & H6 & H7 & H8 & HP).
  rewrite (deploy_agent_after_payload h srv agent spa sp rpa rp tools n0 model desc
             H1 H2 H3 H4 H5 H6 H7 H8) in Hrun.
  cbv zeta in Hrun. rewrite <- HP in Hrun. rewrite Ha, Haid in Hrun.
  rewrite (getitem_has_key _ _ _ Hf) in Hrun.
  unfold dbind, dlift in Hrun. rewrite Hf in Hrun. cbn [py_iter] in Hrun.
  rewrite (upload_files_stop h srv aid ps p e rest _ Hok Hp) in Hrun.
  inversion Hrun; subst. split; reflexivity.
Qed.

(** A deployment with attached files: one PDF and one Markdown file, and
    a third path that does not exist. *)
Definition demo_files_host : host := {|
  ACTION_ROOT := ACTION_ROOT demo_host;
  read_text := read_text demo_host;
  open_binary := fun p =>
    if String.eqb p "/data/missing.pdf" then Err (FileNotFoundError p) else Ok tt;
  guess_type := fun p =>
    if ends_with ".pdf" p then Some "application/pdf"
    else if ends_with ".md" p then Some "text/markdown" else None
|}.

Definition demo_files_agent (files : list string) : json :=
  JObj [("name", JStr "Tutor"); ("description", JStr "Teaches runbooks");
        ("system-prompt", JStr "You are a tutor."); ("retrieval-prompt", JStr "retrieval-prompt.md");
        ("tools", JList [JStr "search"; JObj [("type", JStr "retrieval")]]); ("model", JStr "GPT 4o");
        ("files", JList (map JStr files))].

Definition demo_service_down : service := {|
  http_get := http_get demo_service;
  http_post := fun _ _ => {| status_code := 502; content := None |};
  http_post_file := http_post_file demo_service;
  http_put := http_put demo_service
|}.

Lemma deploy_agent_requests_witness :
  exists P a ps t,
    fst (deploy_agent demo_files_host demo_service
           (demo_files_agent ["/data/guide.pdf"; "/data/notes.md"]) []) =
      ([ReqPost ASSISTANTS_URL P] ++ map (upload_req demo_files_host (JStr "a-1")) ps
       ++ [ReqPost THREADS_POST_URL (welcome_thread (JStr "a-1"))])%list /\
    resp_json (http_post demo_service ASSISTANTS_URL P) = Ok a /\
    getitem a "assistant_id" = Ok (JStr "a-1") /\
    (if has_key "files" (demo_files_agent ["/data/guide.pdf"; "/data/notes.md"])
     then exists fv, getitem (demo_files_agent ["/data/guide.pdf"; "/data/notes.md"]) "files" = Ok fv
                     /\ py_iter fv = Ok (map JStr ps)
     else ps = []) /\
    resp_json (http_post demo_service THREADS_POST_URL (welcome_thread (JStr "a-1"))) = Ok t /\
    getitem t "thread_id" = Ok (JStr "t-1").
Proof.
  apply (deploy_agent_requests demo_files_host demo_service
           (demo_files_agent ["/data/guide.pdf"; "/data/notes.md"])
           (fst (deploy_agent demo_files_host demo_service
                   (demo_files_agent ["/data/guide.pdf"; "/data/notes.md"]) []))
           (JStr "a-1") (JStr "t-1")).
  vm_compute. reflexivity.
Defined.

Lemma deploy_agent_stops_without_assistant_id_witness :
  fst (deploy_agent demo_host demo_service_down demo_agent []) =
    [ReqPost ASSISTANTS_URL demo_assistant_body] /\
  is_err (snd (deploy_agent demo_host demo_service_down demo_agent [])).
Proof.
  apply (deploy_agent_stops_without_assistant_id demo_host demo_service_down demo_agent
           (fst (deploy_agent demo_host demo_service_down demo_agent []))
           (snd (deploy_agent demo_host demo_service_down demo_agent []))
           demo_assistant_body).
  - vm_compute. reflexivity.
  - vm_compute. left. reflexivity.
  - intros a Ha. vm_compute in Ha. discriminate.
Defined.

Lemma deploy_agent_upload_failure_witness :
  fst (deploy_agent demo_files_host demo_service
         (demo_files_agent ["/data/guide.pdf"; "/data/missing.pdf"; "/data/notes.md"]) []) =
    [ReqPost ASSISTANTS_URL demo_assistant_body;
     upload_req demo_files_host (JStr "a-1") "/data/guide.pdf"] /\
  snd (deploy_agent demo_files_host demo_service
         (demo_files_agent ["/data/guide.pdf"; "/data/missing.pdf"; "/data/notes.md"]) []) =
    Err (FileNotFoundError "/data/missing.pdf").
Proof.
  apply (deploy_agent_upload_failure demo_files_host demo_service
           (demo_files_agent ["/data/guide.pdf"; "/data/missing.pdf"; "/data/notes.md"])
           (fst (deploy_agent demo_files_host demo_service
                   (demo_files_agent ["/data/guide.pdf"; "/data/missing.pdf"; "/data/notes.md"]) []))
           (snd (deploy_agent demo_files_host demo_service
                   (demo_files_agent ["/data/guide.pdf"; "/data/missing.pdf"; "/data/notes.md"]) []))
           demo_assistant_body (JObj [("assistant_id", JStr "a-1")]) (JStr "a-1")
           ["/data/guide.pdf"] "/data/missing.pdf" (FileNotFoundError "/data/missing.pdf")
           [JStr "/data/notes.md"]).
  all: try (vm_compute; reflexivity).
  - vm_compute. left. reflexivity.
  - repeat constructor.
Defined.

(** ** [deploy_agent_to_desktop] *)

(** Lines 263-271: the agent dict handed to [deploy_agent]. *)
Definition desktop_agent (template : result json) (name description system_prompt : string)
    (tool_names : option json) : result json :=
  let* data := template in
  let* bundle := getitem data "s4d-bundle" in
  let* agents := getitem bundle "agents" in
  let* first := getindex agents 0 in
  let* agent_to_deploy := getitem first "agent" in
  let* agent1 := setitem agent_to_deploy "name" (JStr name) in
  let* agent2 := setitem agent1 "description" (JStr description) in
  let* agent3 := setitem agent2 "system-prompt" (JStr system_prompt) in
  let* decoded := match tool_names with Some v => Ok v | None => Err JSONDecodeError end in
  let* tool_list := py_iter decoded in
  let* tools := action_server_tools tool_list in
  setitem agent3 "tools" (JList tools).

Lemma deploy_agent_to_desktop_split h template srv name description system_prompt tool_names :
  deploy_agent_to_desktop h template srv name description system_prompt tool_names [] =
  match desktop_agent template name description system_prompt tool_names with
  | Err e => ([], Err e)
  | Ok agent =>
      match deploy_agent h srv agent [] with
      | (l, Ok ids) => (l, Ok (py_repr (JObj [("assistant_id", fst ids); ("thread_id", snd ids)])))
      | (l, Err e) => (l, Err e)
      end
  end.
Proof.
  unfold deploy_agent_to_desktop, desktop_agent, dbind at 1 2 3 4 5 6 7 8 9 10 11 12, dlift.
  destruct template as [data | e]; simpl; [| reflexivity].
  destruct (getitem data "s4d-bundle") as [bundle | e]; simpl; [| reflexivity].
  destruct (getitem bundle "agents") as [agents | e]; simpl; [| reflexivity].
  destruct (getindex agents 0) as [first | e]; simpl; [| reflexivity].
  destruct (getitem first "agent") as [a0 | e]; simpl; [| reflexivity].
  destruct (setitem a0 "name" _) as [a1 | e]; simpl; [| reflexivity].
  destruct (setitem a1 "description" _) as [a2 | e]; simpl; [| reflexivity].
  destruct (setitem a2 "system-prompt" _) as [a3 | e]; simpl; [| reflexivity].
  destruct tool_names as [v |]; simpl; [| reflexivity].
  destruct (py_iter v) as [tl | e]; simpl; [| reflexivity].
  destruct (action_server_tools tl) as [tools | e]; simpl; [| reflexivity].
  destruct (setitem a3 "tools" _) as [a4 | e]; simpl; [| reflexivity].
  unfold dbind, dret. destruct (deploy_agent h srv a4 []) as [l [ids | e]]; reflexivity.
Qed.

Lemma assoc_lookup_set_eq k v kvs : assoc_lookup k (assoc_set k v kvs) = Some v.
Proof.
  induction kvs as [| [k' v'] rest IH]; simpl.
  - rewrite String.eqb_refl. reflexivity.
  - destruct (String.eqb k k') eqn:E; simpl; rewrite E; [reflexivity | exact IH].
Qed.

Lemma assoc_lookup_set_ne k k2 v kvs :
  k <> k2 -> assoc_lookup k2 (assoc_set k v kvs) = assoc_lookup k2 kvs.
Proof.
  intros Hne. induction kvs as [| [k' v'] rest IH]; simpl.
  - destruct (String.eqb k2 k) eqn:E; [apply String.eqb_eq in E; congruence | reflexivity].
  - destruct (String.eqb k k') eqn:E.
    + apply String.eqb_eq in E; subst k'. simpl.
      destruct (String.eqb k2 k) eqn:E2; [apply String.eqb_eq in E2; congruence | reflexivity].
    + simpl. destruct (String.eqb k2 k'); [reflexivity | exact IH].
Qed.

Ltac simpl_lookup :=
  repeat first [rewrite assoc_lookup_set_eq | rewrite assoc_lookup_set_ne by discriminate].

Lemma action_server_tools_spec tl tools :
  action_server_tools tl = Ok tools ->
  Forall2 (fun t c => exists n p, getitem t "tool_name" = Ok n /\ getitem t "port" = Ok p /\
                                  c = create_action_server_config n p) tl tools /\
  normalize_tools tools = Ok tools.
Proof.
  revert tools; induction tl as [| t rest IH]; intros tools H; simpl in H.
  - inversion H; subst. split; [constructor | reflexivity].
  - destruct (getitem t "tool_name") as [n | e] eqn:Hn; simpl in H; [| discriminate].
    destruct (getitem t "port") as [p | e] eqn:Hp; simpl in H; [| discriminate].
    destruct (action_server_tools rest) as [rest' | e]; simpl in H; [| discriminate].
    inversion H; subst. destruct (IH rest' eq_refl) as [Hf Hnorm].
    split; [constructor; [exists n, p; repeat split; assumption | exact Hf] |].
    simpl. rewrite Hnorm. reflexivity.
Qed.

Lemma getitem_obj k kvs : getitem (JObj kvs) k =
  match assoc_lookup k kvs with Some x => Ok x | None => Err (KeyError k) end.
Proof. reflexivity. Qed.

(** What [deploy_agent_to_desktop] POSTs to create the assistant: the
    given name and description, the model and the retrieval prompt of the
    template's first agent, one action-server tool config per entry of the
    decoded [tool_names] (in order), and as system message the text of the
    file the given prompt names (relative to [ACTION_ROOT]) when that file
    can be read, or the prompt itself when reading raises an [OSError]. *)
Theorem deploy_agent_to_desktop_payload (h : host) (template : result json) (srv : service)
    (name description system_prompt : string) (tool_names : option json) log r P :
  deploy_agent_to_desktop h template srv name description system_prompt tool_names [] = (log, r) ->
  In (ReqPost ASSISTANTS_URL P) log ->
  exists data bundle agents first akvs tv tl tools model rpa rp sp,
    template = Ok data /\ getitem data "s4d-bundle" = Ok bundle /\
    getitem bundle "agents" = Ok agents /\ getindex agents 0 = Ok first /\
    getitem first "agent" = Ok (JObj akvs) /\
    tool_names = Some tv /\ py_iter tv = Ok tl /\
    Forall2 (fun t c => exists n p, getitem t "tool_name" = Ok n /\ getitem t "port" = Ok p /\
                                    c = create_action_server_config n p) tl tools /\
    assoc_lookup "model" akvs = Some model /\
    assoc_lookup "retrieval-prompt" akvs = Some rpa /\ read_text_file h rpa = Ok rp /\
    (read_text h (handle_relative_file_path h system_prompt) = Ok sp \/
     (exists e, read_text h (handle_relative_file_path h system_prompt) = Err e /\
                is_oserror e = true /\ sp = system_prompt)) /\
    P = assistant_payload (JStr name) rp model (JStr sp) tools (JStr description).
Proof.
  intros H Hin. rewrite deploy_agent_to_desktop_split in H.
  destruct (desktop_agent template name description system_prompt tool_names) as [agent | e] eqn:Hd;
    [| inversion H; subst; destruct Hin].
  assert (Hdep : exists r', deploy_agent h srv agent [] = (log, r')).
  { destruct (deploy_agent h srv agent []) as [l [ids | e]]; inversion H; subst; eexists; reflexivity. }
  clear H. destruct Hdep as [r' Hdep].
  destruct (deploy_agent_assistant_post h srv agent log r' P Hdep Hin)
    as (spa & sp0 & rpa & rp & tools0 & n0 & model & desc & H1 & H2 & H3 & H4 & H5 & H6 & H7 & H8 & HP).
  unfold desktop_agent in Hd.
  destruct template as [data | e]; simpl in Hd; [| discriminate].
  destruct (getitem data "s4d-bundle") as [bundle | e] eqn:Hb; simpl in Hd; [| discriminate].
  destruct (getitem bundle "agents") as [agents | e] eqn:Has; simpl in Hd; [| discriminate].
  destruct (getindex agents 0) as [first | e] eqn:Hf; simpl in Hd; [| discriminate].
  destruct (getitem first "agent") as [a0 | e] eqn:Ha0; simpl in Hd; [| discriminate].
  destruct a0 as [| | | | | akvs]; simpl in Hd; try discriminate.
  destruct tool_names as [tv |]; simpl in Hd; [| discriminate].
  destruct (py_iter tv) as [tl | e] eqn:Htl; simpl in Hd; [| discriminate].
  destruct (action_server_tools tl) as [tools | e] eqn:Htools; simpl in Hd; [| discriminate].
  inversion Hd; subst agent; clear Hd.
  destruct (action_server_tools_spec tl tools Htools) as [Hf2 Hnorm].
  rewrite getitem_obj in H1, H3, H6, H7, H8.
  unfold agent_tools in H5. cbn [has_key] in H5. rewrite getitem_obj in H5.
  revert H1 H3 H5 H6 H7 H8. simpl_lookup. cbn [bind py_iter].
  rewrite Hnorm.
  intros H1 H3 H5 H6 H7 H8.
  inversion H1; subst spa. inversion H5; subst tools0. inversion H6; subst n0.
  inversion H8; subst desc.
  destruct (assoc_lookup "model" akvs) as [m |] eqn:Hm; [inversion H7; subst m | discriminate].
  destruct (assoc_lookup "retrieval-prompt" akvs) as [rv |] eqn:Hr; [inversion H3; subst rv | discriminate].
  unfold resolve_system_prompt, read_text_file in H2.
  assert (Hsp : exists sp, sp0 = JStr sp /\
    (read_text h (handle_relative_file_path h system_prompt) = Ok sp \/
     (exists e, read_text h (handle_relative_file_path h system_prompt) = Err e /\
                is_oserror e = true /\ sp = system_prompt))).
  { destruct (read_text h (handle_relative_file_path h system_prompt)) as [txt | e] eqn:Ht.
    - inversion H2; subst. exists txt. split; [reflexivity | left; reflexivity].
    - destruct (is_oserror e) eqn:Ho; [| discriminate].
      inversion H2; subst. exists system_prompt. split; [reflexivity |].
      right. exists e. repeat split; assumption. }
  destruct Hsp as [sp [-> Hsp]].
  exists data, bundle, agents, first, akvs, tv, tl, tools, model, rpa, rp, sp.
  repeat split; assumption.
Qed.

(** A bundle template with one agent, and a tool list naming one action
    server. *)
Definition demo_template : json :=
  JObj [("s4d-bundle", JObj [("agents", JList [JObj [("agent", JObj
    [("name", JStr "Runbook Agent"); ("description", JStr "placeholder");
     ("model", JStr "GPT 4o"); ("system-prompt", JStr "runbook.md");
     ("retrieval-prompt", JStr "retrieval-prompt.md"); ("tools", JList [])])]])])].

Definition demo_tool_names : json :=
  JList [JObj [("tool_name", JStr "Browsing"); ("port", JInt 8081)]].

Definition demo_desktop_run : list request * result string :=
  deploy_agent_to_desktop demo_host (Ok demo_template) demo_service
    "Tutor" "Teaches runbooks" "You are a tutor." (Some demo_tool_names) [].

Definition demo_desktop_payload : json :=
  assistant_payload (JStr "Tutor") "Search the files." (JStr "GPT 4o") (JStr "You are a tutor.")
    [create_action_server_config (JStr "Browsing") (JInt 8081)] (JStr "Teaches runbooks").

Lemma deploy_agent_to_desktop_payload_witness :
  exists data bundle agents first akvs tv tl tools model rpa rp sp,
    Ok demo_template = Ok data /\ getitem data "s4d-bundle" = Ok bundle /\
    getitem bundle "agents" = Ok agents /\ getindex agents 0 = Ok first /\
    getitem first "agent" = Ok (JObj akvs) /\
    Some demo_tool_names = Some tv /\ py_iter tv = Ok tl /\
    Forall2 (fun t c => exists n p, getitem t "tool_name" = Ok n /\ getitem t "port" = Ok p /\
                                    c = create_action_server_config n p) tl tools /\
    assoc_lookup "model" akvs = Some model /\
    assoc_lookup "retrieval-prompt" akvs = Some rpa /\ read_text_file demo_host rpa = Ok rp /\
    (read_text demo_host (handle_relative_file_path demo_host "You are a tutor.") = Ok sp \/
     (exists e, read_text demo_host (handle_relative_file_path demo_host "You are a tutor.") = Err e /\
                is_oserror e = true /\ sp = "You are a tutor.")) /\
    demo_desktop_payload = assistant_payload (JStr "Tutor") rp model (JStr sp) tools (JStr "Teaches runbooks").
Proof.
  apply (deploy_agent_to_desktop_payload demo_host (Ok demo_template) demo_service
           "Tutor" "Teaches runbooks" "You are a tutor." (Some demo_tool_names)
           (fst demo_desktop_run) (snd demo_desktop_run) demo_desktop_payload).
  - reflexivity.
  - vm_compute. left. reflexivity.
Defined.

Lemma string_app_assoc (a b c : string) : ((a ++ b) ++ c)%string = (a ++ (b ++ c))%string.
Proof. induction a as [| x a IH]; simpl; [reflexivity | rewrite IH; reflexivity]. Qed.

Lemma action_server_tools_missing tl t :
  In t tl -> is_err (getitem t "tool_name") \/ is_err (getitem t "port") ->
  is_err (action_server_tools tl).
Proof.
  intros Hin Hbad. induction tl as [| t' rest IH]; [destruct Hin |]. simpl.
  destruct Hin as [-> | Hin].
  - destruct Hbad as [[e He] | [e He]].
    + rewrite He. exists e. reflexivity.
    + destruct (getitem t "tool_name"); simpl; [rewrite He |]; eexists; reflexivity.
  - destruct (getitem t' "tool_name"); simpl; [| eexists; reflexivity].
    destruct (getitem t' "port"); simpl; [| eexists; reflexivity].
    destruct (IH Hin) as [e He]. rewrite He. exists e. reflexivity.
Qed.

(** [deploy_agent_to_desktop] decodes and checks the whole tool list
    before it deploys: when [tool_names] is not JSON, or one of its entries
    lacks [tool_name] or [port], it fails without sending any request. *)
Theorem deploy_agent_to_desktop_checks_tools_first (h : host) (template : result json)
    (srv : service) (name description system_prompt : string) (tool_names : option json) :
  tool_names = None \/
  (exists tl t, tool_names = Some (JList tl) /\ In t tl /\
                (is_err (getitem t "tool_name") \/ is_err (getitem t "port"))) ->
  exists e, deploy_agent_to_desktop h template srv name description system_prompt tool_names [] =
            ([], Err e).
Proof.
  intros Hbad. rewrite deploy_agent_to_desktop_split.
  enough (He : is_err (desktop_agent template name description system_prompt tool_names))
    by (destruct He as [e He]; rewrite He; exists e; reflexivity).
  unfold desktop_agent.
  destruct template as [data | e]; simpl; [| eexists; reflexivity].
  destruct (getitem data "s4d-bundle") as [bundle | e]; simpl; [| eexists; reflexivity].
  destruct (getitem bundle "agents") as [agents | e]; simpl; [| eexists; reflexivity].
  destruct (getindex agents 0) as [first | e]; simpl; [| eexists; reflexivity].
  destruct (getitem first "agent") as [a0 | e]; simpl; [| eexists; reflexivity].
  destruct (setitem a0 "name" _) as [a1 | e]; simpl; [| eexists; reflexivity].
  destruct (setitem a1 "description" _) as [a2 | e]; simpl; [| eexists; reflexivity].
  destruct (setitem a2 "system-prompt" _) as [a3 | e]; simpl; [| eexists; reflexivity].
  destruct Hbad as [-> | (tl & t & -> & Hin & Ht)]; simpl; [eexists; reflexivity |].
  destruct (action_server_tools_missing tl t Hin Ht) as [e He]. rewrite He.
  eexists; reflexivity.
Qed.

(** A successful [deploy_agent_to_desktop] returns
    [repr({"assistant_id": ..., "thread_id": ...})] of the ids the service
    answered to the assistant-creation POST and to the thread-creation
    POST. *)
Theorem deploy_agent_to_desktop_result (h : host) (template : result json) (srv : service)
    (name description system_prompt : string) (tool_names : option json) log s :
  deploy_agent_to_desktop h template srv name description system_prompt tool_names [] = (log, Ok s) ->
  exists P a aid t tid,
    s = "{'assistant_id': " ++ py_repr aid ++ ", 'thread_id': " ++ py_repr tid ++ "}" /\
    In (ReqPost ASSISTANTS_URL P) log /\
    resp_json (http_post srv ASSISTANTS_URL P) = Ok a /\ getitem a "assistant_id" = Ok aid /\
    In (ReqPost THREADS_POST_URL (welcome_thread aid)) log /\
    resp_json (http_post srv THREADS_POST_URL (welcome_thread aid)) = Ok t /\
    getitem t "thread_id" = Ok tid.
Proof.
  intros H. rewrite deploy_agent_to_desktop_split in H.
  destruct (desktop_agent template name description system_prompt tool_names) as [agent | e];
    [| discriminate].
  destruct (deploy_agent h srv agent []) as [l [[aid tid] | e]] eqn:Hdep; [| discriminate].
  inversion H; subst l s; clear H.
  destruct (deploy_agent_ok_log h srv agent log aid tid Hdep)
    as (P & a & ps & t & Hlog & Ha & Haid & _ & Ht & Htid).
  exists P, a, aid, t, tid. split.
  - cbn [py_repr map fst snd join]. rewrite !string_app_assoc. reflexivity.
  - rewrite Hlog. split; [left; reflexivity |].
    split; [exact Ha |]. split; [exact Haid |].
    split; [| split; assumption].
    right. apply in_or_app. right. apply in_or_app. right. left. reflexivity.
Qed.

Lemma deploy_agent_to_desktop_checks_tools_first_witness :
  exists e, deploy_agent_to_desktop demo_host (Ok demo_template) demo_service
              "Tutor" "Teaches runbooks" "You are a tutor."
              (Some (JList [JObj [("tool_name", JStr "Browsing")]])) [] = ([], Err e).
Proof.
  apply deploy_agent_to_desktop_checks_tools_first.
  right. exists [JObj [("tool_name", JStr "Browsing")]], (JObj [("tool_name", JStr "Browsing")]).
  split; [reflexivity |]. split; [left; reflexivity |].
  right. exists (KeyError "port"). reflexivity.
Defined.

Lemma deploy_agent_to_desktop_result_witness :
  exists P a aid t tid,
    "{'assistant_id': 'a-1', 'thread_id': 't-1'}" =
      "{'assistant_id': " ++ py_repr aid ++ ", 'thread_id': " ++ py_repr tid ++ "}" /\
    In (ReqPost ASSISTANTS_URL P) (fst demo_desktop_run) /\
    resp_json (http_post demo_service ASSISTANTS_URL P) = Ok a /\ getitem a "assistant_id" = Ok aid /\
    In (ReqPost THREADS_POST_URL (welcome_thread aid)) (fst demo_desktop_run) /\
    resp_json (http_post demo_service THREADS_POST_URL (welcome_thread aid)) = Ok t /\
    getitem t "thread_id" = Ok tid.
Proof.
  apply (deploy_agent_to_desktop_result demo_host (Ok demo_template) demo_service
           "Tutor" "Teaches runbooks" "You are a tutor." (Some demo_tool_names)
           (fst demo_desktop_run)).
  vm_compute. reflexivity.
Defined.

(** ** [get_all_agents] *)

Definition ALL_ASSISTANTS_URL : string := BASE ++ "/assistants/".

(** The line [get_all_agents] writes for an agent. *)
Definition agent_line (name assistant_id : json) : string :=
  "Name: " ++ py_str name ++ ", ID: " ++ py_str assistant_id ++ nl.

Lemma string_app_nil_r (a : string) : (a ++ EmptyString)%string = a.
Proof. induction a as [| x a IH]; simpl; [reflexivity | rewrite IH; reflexivity]. Qed.

Lemma agents_info_ok agents ids acc :
  Forall2 (fun a p => getitem a "name" = Ok (fst p) /\ getitem a "assistant_id" = Ok (snd p))
    agents ids ->
  agents_info agents acc =
    Ok (acc ++ String.concat EmptyString (map (fun p => agent_line (fst p) (snd p)) ids)).
Proof.
  intros Hf. revert acc; induction Hf as [| a p agents ids [Hn Hi] _ IH]; intros acc; simpl.
  - rewrite string_app_nil_r. reflexivity.
  - rewrite Hn, Hi. simpl. rewrite IH. f_equal. rewrite string_app_assoc. f_equal.
    destruct ids; cbn [map String.concat]; [apply string_app_nil_r | reflexivity].
Qed.

(** When the assistants endpoint answers a JSON list in which every entry
    has a [name] and an [assistant_id], [get_all_agents] returns
    ["Available agents are:\n"] followed by one line
    ["Name: <name>, ID: <assistant_id>\n"] per agent, in the service's
    order; for an empty list it returns the header alone. *)
Theorem get_all_agents_listing (srv : service) (agents : list json) (ids : list (json * json)) :
  content (http_get srv ALL_ASSISTANTS_URL) = Some (JList agents) ->
  Forall2 (fun a p => getitem a "name" = Ok (fst p) /\ getitem a "assistant_id" = Ok (snd p))
    agents ids ->
  get_all_agents srv =
    Ok ("Available agents are:" ++ nl
        ++ String.concat EmptyString (map (fun p => agent_line (fst p) (snd p)) ids)).
Proof.
  intros Hc Hf. unfold get_all_agents, resp_json. fold ALL_ASSISTANTS_URL. rewrite Hc.
  cbn [bind py_iter]. rewrite (agents_info_ok agents ids EmptyString Hf). reflexivity.
Qed.

Lemma agents_info_missing agents a acc :
  In a agents -> is_err (getitem a "name") \/ is_err (getitem a "assistant_id") ->
  is_err (agents_info agents acc).
Proof.
  intros Hin Hbad. revert acc; induction agents as [| a' rest IH]; intros acc; [destruct Hin |].
  simpl. destruct Hin as [-> | Hin].
  - destruct Hbad as [[e He] | [e He]].
    + rewrite He. exists e. reflexivity.
    + destruct (getitem a "name"); simpl; [rewrite He |]; eexists; reflexivity.
  - destruct (getitem a' "name"); simpl; [| eexists; reflexivity].
    destruct (getitem a' "assistant_id"); simpl; [| eexists; reflexivity].
    apply IH; exact Hin.
Qed.

(** One agent without a [name] or an [assistant_id] makes the whole
    [get_all_agents] call fail: no partial listing is returned. *)
Theorem get_all_agents_fails_as_a_whole (srv : service) (agents : list json) (a : json) :
  content (http_get srv ALL_ASSISTANTS_URL) = Some (JList agents) ->
  In a agents -> is_err (getitem a "name") \/ is_err (getitem a "assistant_id") ->
  is_err (get_all_agents srv).
Proof.
  intros Hc Hin Hbad. unfold get_all_agents, resp_json. fold ALL_ASSISTANTS_URL. rewrite Hc.
  cbn [bind py_iter].
  destruct (agents_info_missing agents a EmptyString Hin Hbad) as [e He]. rewrite He.
  exists e. reflexivity.
Qed.

Definition demo_agents_service (agents : list json) : service := {|
  http_get := fun _ => {| status_code := 200; content := Some (JList agents) |};
  http_post := http_post demo_service;
  http_post_file := http_post_file demo_service;
  http_put := http_put demo_service
|}.

Definition demo_agents : list json :=
  [JObj [("assistant_id", JStr "a-1"); ("name", JStr "Tutor")];
   JObj [("assistant_id", JStr "a-2"); ("name", JStr "Deployer"); ("public", JBool true)]].

Lemma get_all_agents_listing_witness :
  get_all_agents (demo_agents_service demo_agents) =
    Ok ("Available agents are:" ++ nl ++ "Name: Tutor, ID: a-1" ++ nl
        ++ "Name: Deployer, ID: a-2" ++ nl).
Proof.
  rewrite (get_all_agents_listing (demo_agents_service demo_agents) demo_agents
             [(JStr "Tutor", JStr "a-1"); (JStr "Deployer", JStr "a-2")] eq_refl).
  - vm_compute. reflexivity.
  - repeat constructor.
Defined.

Lemma get_all_agents_fails_as_a_whole_witness :
  is_err (get_all_agents (demo_agents_service (demo_agents ++ [JObj [("assistant_id", JStr "a-3")]]))).
Proof.
  apply (get_all_agents_fails_as_a_whole
           (demo_agents_service (demo_agents ++ [JObj [("assistant_id", JStr "a-3")]]))
           (demo_agents ++ [JObj [("assistant_id", JStr "a-3")]])
           (JObj [("assistant_id", JStr "a-3")]) eq_refl).
  - right. right. left. reflexivity.
  - left. exists (KeyError "name"). reflexivity.
Defined.

(** ** Edge behaviour of [get_latest_thread] *)

Lemma filter_threads_missing aid ts t e :
  In t ts -> getitem t "assistant_id" = Err e -> is_err (filter_threads aid ts).
Proof.
  intros Hin He. induction ts as [| t' rest IH]; [destruct Hin |]. simpl.
  destruct Hin as [-> | Hin].
  - rewrite He. exists e. reflexivity.
  - destruct (getitem t' "assistant_id"); simpl; [| eexists; reflexivity].
    destruct (IH Hin) as [e' He']. rewrite He'. exists e'. reflexivity.
Qed.

(** A single thread without an [assistant_id], of whichever assistant,
    makes [get_latest_thread] fail for every assistant. *)
Theorem get_latest_thread_needs_every_assistant_id (fromiso : iso_parser) (srv : service)
    (aid : string) (ts : list json) (t : json) (e : exn) :
  content (http_get srv THREADS_URL) = Some (JList ts) ->
  In t ts -> getitem t "assistant_id" = Err e ->
  is_err (get_latest_thread fromiso srv aid).
Proof.
  intros Hc Hin He. unfold get_latest_thread, resp_json. fold THREADS_URL. rewrite Hc.
  cbn [bind py_iter].
  destruct (filter_threads_missing aid ts t e Hin He) as [e' He']. rewrite He'.
  exists e'. reflexivity.
Qed.

Lemma summarize_thread_same_history srv srv' t :
  (forall url, url <> THREADS_URL -> http_get srv' url = http_get srv url) ->
  summarize_thread srv' t = summarize_thread srv t.
Proof.
  intros Hsame. unfold summarize_thread.
  destruct (getitem t "thread_id") as [tid | e]; cbn [bind]; [| reflexivity].
  rewrite Hsame by apply history_url_ne. reflexivity.
Qed.

(** Threads of other assistants are only read for their [assistant_id]:
    two thread lists with the same threads of [aid], in the same order,
    give the same result, whatever else the other threads hold. *)
Theorem get_latest_thread_ignores_other_assistants (fromiso : iso_parser) (srv srv' : service)
    (aid : string) (ts ts' : list json) :
  content (http_get srv THREADS_URL) = Some (JList ts) ->
  content (http_get srv' THREADS_URL) = Some (JList ts') ->
  (forall url, url <> THREADS_URL -> http_get srv' url = http_get srv url) ->
  Forall (fun t => exists a, getitem t "assistant_id" = Ok a) ts ->
  Forall (fun t => exists a, getitem t "assistant_id" = Ok a) ts' ->
  matching aid ts = matching aid ts' ->
  get_latest_thread fromiso srv' aid = get_latest_thread fromiso srv aid.
Proof.
  intros Hc Hc' Hsame Hids Hids' Hm.
  rewrite (get_latest_thread_unfold fromiso srv aid ts Hc Hids),
          (get_latest_thread_unfold fromiso srv' aid ts' Hc' Hids'), <- Hm.
  destruct (matching aid ts) as [| t0 ms]; [reflexivity |].
  destruct (stamp_threads fromiso (t0 :: ms)) as [ps | e]; cbn [bind]; [| reflexivity].
  destruct (py_max ps) as [r | e]; [| reflexivity].
  apply summarize_thread_same_history; exact Hsame.
Qed.

Lemma max_from_keeps (best : json * datetime) items :
  Forall (fun p => naive (snd p) = naive (snd best) /\ inst (snd p) <= inst (snd best)) items ->
  max_from best items = Ok best.
Proof.
  intros Hall. induction Hall as [| it rest [Ha Hle] _ IH]; [reflexivity |].
  simpl. rewrite (dt_gt_same _ _ Ha). simpl.
  replace (Z.gtb (inst (snd it)) (inst (snd best))) with false; [exact IH |].
  symmetry. rewrite Z.gtb_ltb. apply Z.ltb_ge. exact Hle.
Qed.

Lemma max_from_first_latest (best x : json * datetime) pre post :
  naive (snd best) = naive (snd x) -> inst (snd best) < inst (snd x) ->
  Forall (fun p => naive (snd p) = naive (snd x) /\ inst (snd p) < inst (snd x)) pre ->
  Forall (fun p => naive (snd p) = naive (snd x) /\ inst (snd p) <= inst (snd x)) post ->
  max_from best (pre ++ x :: post)%list = Ok x.
Proof.
  intros Hb Hlt Hpre Hpost. revert best Hb Hlt.
  induction Hpre as [| y pre [Hy Hylt] _ IH]; intros best Hb Hlt; simpl.
  - rewrite (dt_gt_same _ _ (eq_sym Hb)). simpl.
    replace (Z.gtb (inst (snd x)) (inst (snd best))) with true
      by (symmetry; apply Z.gtb_lt; exact Hlt).
    apply max_from_keeps; exact Hpost.
  - rewrite (dt_gt_same _ _ (eq_trans Hy (eq_sym Hb))). simpl.
    destruct (Z.gtb (inst (snd y)) (inst (snd best))); apply IH; assumption.
Qed.

Lemma stamp_threads_app (fromiso : iso_parser) l1 l2 p1 p2 :
  stamp_threads fromiso l1 = Ok p1 -> stamp_threads fromiso l2 = Ok p2 ->
  stamp_threads fromiso (l1 ++ l2)%list = Ok (p1 ++ p2)%list.
Proof.
  revert p1; induction l1 as [| t l1 IH]; intros p1 H1 H2; simpl in *.
  - inversion H1; subst. exact H2.
  - destruct (thread_updated_at fromiso t) as [d | e]; simpl in *; [| discriminate].
    destruct (stamp_threads fromiso l1) as [q | e]; simpl in *; [| discriminate].
    inversion H1; subst. rewrite (IH q eq_refl H2). reflexivity.
Qed.

Lemma stamp_threads_bound (fromiso : iso_parser) (P : datetime -> Prop) l :
  Forall (fun t => exists d', thread_updated_at fromiso t = Ok d' /\ P d') l ->
  exists ps, stamp_threads fromiso l = Ok ps /\ Forall (fun p => P (snd p)) ps.
Proof.
  induction 1 as [| t l [d' [Hd HP]] _ [ps [Hps Hall]]]; [exists []; split; constructor |].
  exists ((t, d') :: ps). simpl. rewrite Hd, Hps. split; [reflexivity | constructor; assumption].
Qed.

(** When several threads of the assistant share the latest [updated_at]
    (as instants, or as wall-clock times when they have no offset),
    [get_latest_thread] summarises the first of them in the service's
    order: the thread it picks is the first whose timestamp is not
    exceeded by any other. *)
Theorem get_latest_thread_first_of_latest (fromiso : iso_parser) (srv : service) (aid : string)
    (ts : list json) pre best post d :
  content (http_get srv THREADS_URL) = Some (JList ts) ->
  Forall (fun t => exists a, getitem t "assistant_id" = Ok a) ts ->
  matching aid ts = (pre ++ best :: post)%list ->
  thread_updated_at fromiso best = Ok d ->
  Forall (fun t => exists d', thread_updated_at fromiso t = Ok d' /\
                              naive d' = naive d /\ inst d' < inst d) pre ->
  Forall (fun t => exists d', thread_updated_at fromiso t = Ok d' /\
                              naive d' = naive d /\ inst d' <= inst d) post ->
  get_latest_thread fromiso srv aid = summarize_thread srv best.
Proof.
  intros Hc Hids Hm Hd Hpre Hpost.
  rewrite (get_latest_thread_unfold fromiso srv aid ts Hc Hids), Hm.
  destruct (stamp_threads_bound fromiso (fun d' => naive d' = naive d /\ inst d' < inst d) pre Hpre)
    as [p1 [Hp1 Hall1]].
  destruct (stamp_threads_bound fromiso (fun d' => naive d' = naive d /\ inst d' <= inst d) post Hpost)
    as [p2 [Hp2 Hall2]].
  assert (Hst : stamp_threads fromiso (best :: post) = Ok ((best, d) :: p2))
    by (simpl; rewrite Hd, Hp2; reflexivity).
  rewrite (stamp_threads_app fromiso pre (best :: post) p1 ((best, d) :: p2) Hp1 Hst).
  destruct pre as [| t0 pre].
  - simpl in Hp1. inversion Hp1; subst p1. cbn [app bind py_max].
    rewrite (max_from_keeps (best, d) p2 Hall2). reflexivity.
  - destruct p1 as [| q p1].
    { simpl in Hp1. destruct (thread_updated_at fromiso t0); simpl in Hp1; [| discriminate].
      destruct (stamp_threads fromiso pre); discriminate. }
    pose proof (Forall_inv Hall1) as [Hqa Hqlt]. pose proof (Forall_inv_tail Hall1) as Hall1'.
    cbn [app bind py_max].
    rewrite (max_from_first_latest q (best, d) p1 p2 Hqa Hqlt Hall1' Hall2).
    reflexivity.
Qed.

Lemma max_from_mixed (best : json * datetime) items x :
  In x items -> naive (snd x) <> naive (snd best) -> max_from best items = Err TypeError.
Proof.
  revert best; induction items as [| it rest IH]; intros best Hin Hk; [destruct Hin |].
  simpl. unfold dt_gt.
  destruct Hin as [-> | Hin].
  - unfold naive in Hk.
    destruct (dt_offset (snd x)), (dt_offset (snd best)); try congruence; reflexivity.
  - destruct (dt_offset (snd it)) eqn:Ei, (dt_offset (snd best)) eqn:Eb; simpl;
      try reflexivity;
      (apply (IH _ Hin); destruct (Z.gtb _ _); unfold naive in *; rewrite ?Ei, ?Eb in *; exact Hk).
Qed.

(** Timestamps with and without a UTC offset cannot be compared: when two
    of the assistant's threads carry one of each (say [...T10:00Z] and
    [...T10:00]) and every thread of the assistant has an [updated_at]
    that parses, [get_latest_thread] fails with [TypeError]. *)
Theorem get_latest_thread_mixed_offsets (fromiso : iso_parser) (srv : service) (aid : string)
    (ts : list json) t1 t2 d1 d2 :
  content (http_get srv THREADS_URL) = Some (JList ts) ->
  Forall (fun t => exists a, getitem t "assistant_id" = Ok a) ts ->
  Forall (fun t => exists d, thread_updated_at fromiso t = Ok d) (matching aid ts) ->
  In t1 (matching aid ts) -> In t2 (matching aid ts) ->
  thread_updated_at fromiso t1 = Ok d1 -> thread_updated_at fromiso t2 = Ok d2 ->
  dt_offset d1 <> None -> dt_offset d2 = None ->
  get_latest_thread fromiso srv aid = Err TypeError.
Proof.
  intros Hc Hids Hall Hin1 Hin2 Hd1 Hd2 Ha1 Hn2.
  rewrite (get_latest_thread_unfold fromiso srv aid ts Hc Hids).
  destruct (stamp_threads_bound fromiso (fun _ => True) (matching aid ts)
              (Forall_impl _ (fun t '(ex_intro _ d Hd) => ex_intro _ d (conj Hd I)) Hall))
    as [ps [Hps _]].
  assert (Hin : forall t d, In t (matching aid ts) -> thread_updated_at fromiso t = Ok d -> In (t, d) ps).
  { clear -Hps. revert ps Hps. induction (matching aid ts) as [| t0 ms IH]; intros ps Hps t d Ht Hd;
      [destruct Ht |].
    simpl in Hps. destruct (thread_updated_at fromiso t0) as [d0 | e] eqn:E0; simpl in Hps; [| discriminate].
    destruct (stamp_threads fromiso ms) as [q | e] eqn:Eq; simpl in Hps; [| discriminate].
    inversion Hps; subst. destruct Ht as [-> | Ht].
    - rewrite E0 in Hd; inversion Hd; subst. left; reflexivity.
    - right. exact (IH q eq_refl t d Ht Hd). }
  pose proof (Hin t1 d1 Hin1 Hd1) as P1. pose proof (Hin t2 d2 Hin2 Hd2) as P2.
  destruct (matching aid ts) as [| m0 ms]; [destruct Hin1 |].
  rewrite Hps. cbn [bind].
  destruct ps as [| p0 rest]; [destruct P1 |]. simpl.
  destruct (bool_dec (naive (snd p0)) (naive d1)) as [E1 | E1].
  - assert (Hneq : naive (snd (t2, d2)) <> naive (snd p0)).
    { rewrite E1. unfold naive; simpl. rewrite Hn2. destruct (dt_offset d1); congruence. }
    destruct P2 as [E2 | P2].
    + exfalso. apply Hneq. rewrite E2. reflexivity.
    + rewrite (max_from_mixed p0 rest (t2, d2) P2 Hneq). reflexivity.
  - destruct P1 as [E | P1]; [exfalso; apply E1; rewrite E; reflexivity |].
    rewrite (max_from_mixed p0 rest (t1, d1) P1 (not_eq_sym E1)). reflexivity.
Qed.

(** Thread lists for the edge cases: a thread without an [assistant_id],
    a thread of another assistant with a timestamp that does not parse,
    two threads stamped with the same instant written with different
    offsets, one of them without seconds, and a timestamp with and one
    without offset. *)
Definition demo_orphan : json := JObj [("thread_id", JStr "t9"); ("updated_at", JStr "2024-03-01T00:00:00Z")].
Definition demo_other : json :=
  JObj [("assistant_id", JStr "B"); ("thread_id", JStr "t7"); ("updated_at", JStr "yesterday")].
Definition demo_t2_paris : json := demo_thread "t2" "2024-02-01T01:00+01:00".
Definition demo_t1_utc : json := demo_thread "t1" "2024-02-01T00:00:00Z".
Definition demo_t1_short : json := demo_thread "t1" "2024-02-01T10:00Z".
Definition demo_t2_naive : json := demo_thread "t2" "2024-02-01T10:00".

Definition stamp_of (t : json) : datetime :=
  match thread_updated_at fromisoformat t with
  | Ok d => d
  | Err _ => {| dt_local := 0; dt_offset := None |}
  end.

Lemma get_latest_thread_needs_every_assistant_id_witness :
  is_err (get_latest_thread fromisoformat (demo_thread_service [demo_t1; demo_orphan; demo_t2]) "A").
Proof.
  apply (get_latest_thread_needs_every_assistant_id fromisoformat
           (demo_thread_service [demo_t1; demo_orphan; demo_t2]) "A"
           [demo_t1; demo_orphan; demo_t2] demo_orphan (KeyError "assistant_id")).
  - reflexivity.
  - right. left. reflexivity.
  - reflexivity.
Defined.

Lemma get_latest_thread_ignores_other_assistants_witness :
  get_latest_thread fromisoformat (demo_thread_service [demo_t1; demo_t2]) "A" =
  get_latest_thread fromisoformat (demo_thread_service [demo_other; demo_t1; demo_t2]) "A".
Proof.
  apply (get_latest_thread_ignores_other_assistants fromisoformat
           (demo_thread_service [demo_other; demo_t1; demo_t2])
           (demo_thread_service [demo_t1; demo_t2]) "A"
           [demo_other; demo_t1; demo_t2] [demo_t1; demo_t2]).
  - reflexivity.
  - reflexivity.
  - intros url Hne. simpl.
    destruct (String.eqb url THREADS_URL) eqn:E; [apply String.eqb_eq in E; contradiction | reflexivity].
  - repeat constructor; eexists; reflexivity.
  - repeat constructor; eexists; reflexivity.
  - vm_compute. reflexivity.
Defined.

Lemma get_latest_thread_first_of_latest_witness :
  get_latest_thread fromisoformat (demo_thread_service [demo_t2_paris; demo_t1_utc]) "A" =
  summarize_thread (demo_thread_service [demo_t2_paris; demo_t1_utc]) demo_t2_paris.
Proof.
  apply (get_latest_thread_first_of_latest fromisoformat
           (demo_thread_service [demo_t2_paris; demo_t1_utc]) "A" [demo_t2_paris; demo_t1_utc]
           [] demo_t2_paris [demo_t1_utc] (stamp_of demo_t2_paris)).
  - reflexivity.
  - repeat constructor; eexists; reflexivity.
  - vm_compute. reflexivity.
  - vm_compute. reflexivity.
  - constructor.
  - constructor; [| constructor].
    exists (stamp_of demo_t1_utc). split; [vm_compute; reflexivity |].
    split; [vm_compute; reflexivity |].
    apply Z.leb_le. vm_compute. reflexivity.
Defined.

Lemma get_latest_thread_mixed_offsets_witness :
  get_latest_thread fromisoformat (demo_thread_service [demo_t1_short; demo_t2_naive]) "A"
    = Err TypeError.
Proof.
  apply (get_latest_thread_mixed_offsets fromisoformat
           (demo_thread_service [demo_t1_short; demo_t2_naive]) "A" [demo_t1_short; demo_t2_naive]
           demo_t1_short demo_t2_naive (stamp_of demo_t1_short) (stamp_of demo_t2_naive)).
  - reflexivity.
  - repeat constructor; eexists; reflexivity.
  - repeat constructor; eexists; vm_compute; reflexivity.
  - vm_compute. left. reflexivity.
  - vm_compute. right. left. reflexivity.
  - vm_compute. reflexivity.
  - vm_compute. reflexivity.
  - vm_compute. discriminate.
  - vm_compute. reflexivity.
Defined.







(** ** The runbook update round trip *)

(** The body [update_agent_runbook] PUTs is the fetched assistant's
    [name], [config] and [public], with only
    [config.configurable["type==agent/system_message"]] replaced: the
    update's result is decided by the service's answer to that one PUT;
    once stored, [get_agent_runbook] reads the new runbook back; every
    other entry of [config] and of [configurable] keeps its value. *)
Theorem update_agent_runbook_round_trip (srv : service) (assistant_id new_runbook : string)
    (b name public : json) ckvs cckvs :
  content (http_get srv (assistant_url assistant_id)) = Some b ->
  getitem b "name" = Ok name -> getitem b "public" = Ok public ->
  getitem b "config" = Ok (JObj ckvs) ->
  assoc_lookup "configurable" ckvs = Some (JObj cckvs) ->
  exists B,
    (forall srv', http_get srv' (assistant_url assistant_id) = http_get srv (assistant_url assistant_id) ->
       update_agent_runbook srv' assistant_id new_runbook =
         let response := http_put srv' (assistant_url assistant_id) B in
         if Z.eqb (status_code response) 200 then Ok "Successfully updated!"
         else let* body := resp_json response in
              Ok ("Failed with status code: " ++ z_to_dec (status_code response)
                  ++ ", message is " ++ py_str body)) /\
    getitem B "name" = Ok name /\ getitem B "public" = Ok public /\
    (forall srv', content (http_get srv' (assistant_url assistant_id)) = Some B ->
       get_agent_runbook srv' assistant_id = Ok (JStr new_runbook)) /\
    (forall k, k <> "configurable" -> json_path B ["config"; k] = assoc_lookup k ckvs) /\
    (forall k, k <> runbook_key ->
       json_path B ["config"; "configurable"; k] = assoc_lookup k cckvs).
Proof.
  intros Hb Hname Hpub Hcfg Hcc.
  exists (JObj [("name", name);
                ("config", JObj (assoc_set "configurable"
                                   (JObj (assoc_set runbook_key (JStr new_runbook) cckvs)) ckvs));
                ("public", public)]).
  split; [| split; [reflexivity | split; [reflexivity | split; [| split]]]].
  - intros srv' Hg. unfold update_agent_runbook. unfold resp_json at 1 2 3.
    fold (assistant_url assistant_id). rewrite Hg, Hb; cbn [bind].
    rewrite Hname, Hpub, Hcfg; cbn [bind]. unfold getitem at 1. rewrite Hcc; cbn [bind setitem].
    reflexivity.
  - intros srv' Hc. unfold get_agent_runbook, resp_json. fold (assistant_url assistant_id).
    rewrite Hc. cbn [bind]. rewrite getitem_obj. simpl assoc_lookup. cbn [bind].
    rewrite getitem_obj, assoc_lookup_set_eq. cbn [bind].
    rewrite getitem_obj. fold runbook_key. rewrite assoc_lookup_set_eq. reflexivity.
  - intros k Hk. simpl json_path.
    rewrite assoc_lookup_set_ne by congruence.
    destruct (assoc_lookup k ckvs); reflexivity.
  - intros k Hk. simpl json_path. rewrite assoc_lookup_set_eq.
    rewrite assoc_lookup_set_ne by congruence.
    destruct (assoc_lookup k cckvs); reflexivity.
Qed.

Lemma update_agent_runbook_round_trip_witness :
  exists B,
    (forall srv', http_get srv' (assistant_url "a-1") =
                  http_get (demo_runbook_service {| status_code := 200; content := Some demo_assistant |}
                                                 {| status_code := 200; content := None |})
                           (assistant_url "a-1") ->
       update_agent_runbook srv' "a-1" "new runbook" =
         let response := http_put srv' (assistant_url "a-1") B in
         if Z.eqb (status_code response) 200 then Ok "Successfully updated!"
         else let* body := resp_json response in
              Ok ("Failed with status code: " ++ z_to_dec (status_code response)
                  ++ ", message is " ++ py_str body)) /\
    getitem B "name" = Ok (JStr "Tutor") /\ getitem B "public" = Ok (JBool false) /\
    (forall srv', content (http_get srv' (assistant_url "a-1")) = Some B ->
       get_agent_runbook srv' "a-1" = Ok (JStr "new runbook")) /\
    (forall k, k <> "configurable" -> json_path B ["config"; k] =
       assoc_lookup k [("configurable", JObj [(runbook_key, JStr "old runbook")])]) /\
    (forall k, k <> runbook_key ->
       json_path B ["config"; "configurable"; k] = assoc_lookup k [(runbook_key, JStr "old runbook")]).
Proof.
  apply (update_agent_runbook_round_trip
           (demo_runbook_service {| status_code := 200; content := Some demo_assistant |}
                                 {| status_code := 200; content := None |})
           "a-1" "new runbook" demo_assistant (JStr "Tutor") (JBool false)
           [("configurable", JObj [(runbook_key, JStr "old runbook")])]
           [(runbook_key, JStr "old runbook")]); reflexivity.
Defined.
